(** * K-means clustering: dataset, cluster and algorithm driver

    A shallow embedding of [dataset.py], [cluster.py] and [algorithm.py],
    followed by the properties of the clustering engine.

    Python values are a small dynamic universe ([pyval]); Python floats
    are IEEE-754 binary64 numbers, taken from the Standard Library's
    [SpecFloat]; an exception is an outcome [Raise e] of the [result]
    monad.  Objects that the code mutates in place (a dataset, a
    cluster, the engine) are records threaded through the operations. *)

From Stdlib Require Import ZArith List Bool Lia String.
From Stdlib Require Import Floats.SpecFloat.
From stdpp Require Import base list.

Local Open Scope Z_scope.

(** ** Exceptions and the result monad *)

Inductive exn :=
| AssertionError
| IndexError
| TypeError
| ValueError
| OverflowError
| ZeroDivisionError.

Inductive result (A : Type) :=
| Ok (a : A)
| Raise (e : exn).

Arguments Ok {A} a.
Arguments Raise {A} e.

#[global] Instance result_ret : MRet result := fun A a => Ok a.

#[global] Instance result_bind : MBind result := fun A B f m =>
  match m with
  | Ok a => f a
  | Raise e => Raise e
  end.

(** [assert cond] of Python. *)
Definition py_assert (cond : bool) : result unit :=
  if cond then Ok tt else Raise AssertionError.

(** A loop [for x in xs: acc = f(acc, x)] whose body may raise. *)
Fixpoint foldM {A B : Type} (f : B -> A -> result B) (acc : B) (xs : list A)
  : result B :=
  match xs with
  | [] => Ok acc
  | x :: xs' => acc' ← f acc x; foldM f acc' xs'
  end.

(** A comprehension [[f(x) for x in xs]] whose body may raise. *)
Fixpoint forM {A B : Type} (f : A -> result B) (xs : list A)
  : result (list B) :=
  match xs with
  | [] => Ok []
  | x :: xs' => y ← f x; ys ← forM f xs'; Ok (y :: ys)
  end.

(** ** Numbers

    A Python [float] is a binary64 number.  A Python [int] is unbounded. *)

Definition float := spec_float.

Definition prec : Z := 53.
Definition emax : Z := 1024.

Definition fadd : float -> float -> float := SFadd prec emax.
Definition fsub : float -> float -> float := SFsub prec emax.
Definition fmul : float -> float -> float := SFmul prec emax.
Definition fdiv : float -> float -> float := SFdiv prec emax.
Definition fsqrt : float -> float := SFsqrt prec emax.
Definition fabs : float -> float := SFabs.
Definition fltb : float -> float -> bool := SFltb.
Definition fleb : float -> float -> bool := SFleb.
Definition feqb : float -> float -> bool := SFeqb.

Definition is_nan (f : float) : bool :=
  match f with S754_nan => true | _ => false end.

Definition is_finite (f : float) : bool :=
  match f with S754_zero _ | S754_finite _ _ _ => true | _ => false end.

(** The nearest binary64 number to an integer (ties to even); infinite
    when the integer is out of range. *)
Definition round_int (z : Z) : float := binary_normalize prec emax z 0 false.

(** [float(z)] for an int [z]: OverflowError when [z] is too large. *)
Definition float_of_int (z : Z) : result float :=
  match round_int z with
  | S754_infinity _ => Raise OverflowError
  | f => Ok f
  end.

(** [a / b] for ints: the correctly rounded quotient. *)
Definition int_truediv (a b : Z) : result float :=
  match b, a with
  | 0, _ => Raise ZeroDivisionError
  | _, 0 => Ok (S754_zero false)
  | _, _ =>
      let '(q, e, l) := SFdiv_core_binary prec emax (Z.abs a) 0 (Z.abs b) 0 in
      match binary_round_aux prec emax (xorb (a <? 0) (b <? 0)) q e l with
      | S754_infinity _ => Raise OverflowError
      | f => Ok f
      end
  end.

Inductive num :=
| NInt (z : Z)
| NFloat (f : float).

Definition to_float (n : num) : result float :=
  match n with
  | NInt z => float_of_int z
  | NFloat f => Ok f
  end.

(** [a - b] *)
Definition num_sub (a b : num) : result num :=
  match a, b with
  | NInt x, NInt y => Ok (NInt (x - y))
  | _, _ => x ← to_float a; y ← to_float b; Ok (NFloat (fsub x y))
  end.

(** [a + b] *)
Definition num_add (a b : num) : result num :=
  match a, b with
  | NInt x, NInt y => Ok (NInt (x + y))
  | _, _ => x ← to_float a; y ← to_float b; Ok (NFloat (fadd x y))
  end.

(** [a ** 2].  On a float the power is the rounded square; a finite
    base whose square is out of range raises OverflowError. *)
Definition num_sq (a : num) : result num :=
  match a with
  | NInt x => Ok (NInt (x * x))
  | NFloat f =>
      let r := fmul f f in
      if is_finite f && negb (is_finite r) then Raise OverflowError
      else Ok (NFloat r)
  end.

(** [a ** 0.5].  The base is converted to a float; the power is the
    rounded square root.  (A negative base would give a complex number,
    which [pyval] does not have; a sum of squares is never negative.) *)
Definition num_root (a : num) : result float :=
  x ← to_float a; Ok (fsqrt x).

(** [a / n] for an int [n]. *)
Definition num_truediv (a : num) (n : Z) : result float :=
  match a with
  | NInt x => int_truediv x n
  | NFloat f =>
      y ← float_of_int n;
      if n =? 0 then Raise ZeroDivisionError else Ok (fdiv f y)
  end.

(** ** Values *)

#[warnings="-register-all"]
Inductive pyval :=
| PyNone
| PyNum (n : num)
| PyStr (s : string)
| PyTuple (items : list pyval)
| PyList (items : list pyval).

Definition PyInt (z : Z) : pyval := PyNum (NInt z).
Definition PyFloat (f : float) : pyval := PyNum (NFloat f).

(** [type(v) == tuple] *)
Definition is_tuple (v : pyval) : bool :=
  match v with PyTuple _ => true | _ => false end.

(** [type(v) == list] *)
Definition is_list (v : pyval) : bool :=
  match v with PyList _ => true | _ => false end.

(** [v == None] *)
Definition is_None (v : pyval) : bool :=
  match v with PyNone => true | _ => false end.

(** [type(v) in [int, float]] *)
Definition is_number (v : pyval) : bool :=
  match v with PyNum _ => true | _ => false end.

(** [len(v)] *)
Definition py_len (v : pyval) : result Z :=
  match v with
  | PyTuple l | PyList l => Ok (Z.of_nat (length l))
  | PyStr s => Ok (Z.of_nat (String.length s))
  | _ => Raise TypeError
  end.

(** The items of a tuple or a list, for [for x in v] and [v[i]]. *)
Definition py_items (v : pyval) : result (list pyval) :=
  match v with
  | PyTuple l | PyList l => Ok l
  | _ => Raise TypeError
  end.

(** [l[i]] for a list [l] and [0 <= i]. *)
Definition py_index {A : Type} (l : list A) (i : nat) : result A :=
  match l !! i with
  | Some x => Ok x
  | None => Raise IndexError
  end.

(** A number operand of an arithmetic operator. *)
Definition as_num (v : pyval) : result num :=
  match v with
  | PyNum n => Ok n
  | _ => Raise TypeError
  end.

(** ** [numpy.allclose]

    [numpy.allclose(a, b)] with the default [rtol=1e-05], [atol=1e-08]
    and [equal_nan=False], on one-dimensional sequences of numbers: both
    arguments become float64 arrays, they are broadcast to a common
    length, and every pair must satisfy [|a - b| <= atol + rtol * |b|];
    a pair with an infinity or a NaN is close only when [a == b].
    Integer items are taken in the range that numpy stores as int64,
    where they are converted by rounding. *)

Definition rtol : float := fdiv (round_int 1) (round_int 100000).
Definition atol : float := fdiv (round_int 1) (round_int 100000000).

Definition np_array (v : pyval) : result (list float) :=
  items ← py_items v;
  forM (fun x => n ← as_num x; to_float n) items.

Definition np_broadcast (xs ys : list float)
  : result (list (float * float)) :=
  if (length xs =? length ys)%nat then Ok (zip xs ys)
  else
    match xs, ys with
    | [x], _ => Ok (map (fun y => (x, y)) ys)
    | _, [y] => Ok (map (fun x => (x, y)) xs)
    | _, _ => Raise ValueError
    end.

Definition np_isclose (ab : float * float) : bool :=
  let '(a, b) := ab in
  if is_finite a && is_finite b
  then fleb (fabs (fsub a b)) (fadd atol (fmul rtol (fabs b)))
  else feqb a b.

Definition np_allclose (a b : pyval) : result bool :=
  xs ← np_array a;
  ys ← np_array b;
  ps ← np_broadcast xs ys;
  Ok (forallb np_isclose ps).

(** ** dataset.py *)

Module Dataset.

(** [is_point(value)]: a tuple of int or float. *)
Definition is_point (value : pyval) : bool :=
  match value with
  | PyTuple items => forallb is_number items
  | _ => false
  end.

(** [is_point_list(value)]: a list of points of one dimension, that
    of its first item.  [value[0]] is read before the loop. *)
Definition is_point_list (value : pyval) : result bool :=
  match value with
  | PyList items =>
      first ← py_index items 0;
      dim ← py_len first;
      foldM (fun okay x =>
               if negb (is_point x) then Ok false
               else
                 n ← py_len x;
                 if negb (n =? dim) then Ok false else Ok okay)
            true items
  | _ => Ok false
  end.

(** The attributes [_dimension] and [_contents]. *)
Record t := {
  _dimension : Z;
  _contents : list pyval
}.

Definition getDimension (self : t) : Z := _dimension self.

Definition getContents (self : t) : list pyval := _contents self.

Definition getSize (self : t) : Z := Z.of_nat (length (getContents self)).

(** [Dataset(dim, contents)] *)
Definition __init__ (dim contents : pyval) : result t :=
  match dim with
  | PyNum (NInt d) =>
      _ ← py_assert (0 <? d);
      ok ← is_point_list contents;
      _ ← py_assert (ok || is_None contents);
      match contents with
      | PyNone => Ok {| _dimension := d; _contents := [] |}
      | PyList items => Ok {| _dimension := d; _contents := items |}
      | _ => Raise AssertionError
      end
  | _ => Raise AssertionError
  end.

(** [self.getPoint(i)] *)
Definition getPoint (self : t) (i : pyval) : result pyval :=
  match i with
  | PyNum (NInt z) =>
      _ ← py_assert ((0 <=? z) && (z <=? getSize self - 1));
      py_index (getContents self) (Z.to_nat z)
  | _ => Raise AssertionError
  end.

(** [self.addPoint(point)] *)
Definition addPoint (self : t) (point : pyval) : result t :=
  _ ← py_assert (is_point point);
  n ← py_len point;
  _ ← py_assert (n =? getDimension self);
  Ok {| _dimension := _dimension self;
        _contents := _contents self ++ [point] |}.

End Dataset.

(** ** cluster.py

    A cluster holds a reference to its dataset (the attribute
    [_dataset]).  The dataset is one object shared by the engine and all
    its clusters, so the methods below receive the referenced dataset as
    the argument [dset] rather than a private copy. *)

Module Cluster.

(** The attributes [_centroid] and [_indices]. *)
Record t := {
  _centroid : pyval;
  _indices : list Z
}.

Definition getIndices (self : t) : list Z := _indices self.

Definition getCentroid (self : t) : pyval := _centroid self.

(** [Cluster(dset, centroid)] *)
Definition __init__ (dset : Dataset.t) (centroid : pyval) : result t :=
  _ ← py_assert (is_tuple centroid);
  n ← py_len centroid;
  _ ← py_assert (n =? Dataset.getDimension dset);
  Ok {| _centroid := centroid; _indices := [] |}.

(** [index in self._indices] *)
Definition contains (index : Z) (indices : list Z) : bool :=
  existsb (Z.eqb index) indices.

(** [self.addIndex(index)] *)
Definition addIndex (dset : Dataset.t) (self : t) (index : pyval)
  : result t :=
  match index with
  | PyNum (NInt z) =>
      _ ← py_assert ((0 <=? z) && (z <? Dataset.getSize dset));
      if negb (contains z (_indices self))
      then Ok {| _centroid := _centroid self;
                 _indices := _indices self ++ [z] |}
      else Ok self
  | _ => Raise AssertionError
  end.

(** [self.clear()] *)
Definition clear (self : t) : t :=
  {| _centroid := _centroid self; _indices := [] |}.

(** [self.getContents()] *)
Definition getContents (dset : Dataset.t) (self : t)
  : result (list pyval) :=
  forM (fun i => Dataset.getPoint dset (PyInt i)) (getIndices self).

(** The second loop of [distance]: [all[i].append(centroid[i])]. *)
Fixpoint append_each (all : list (list pyval)) (centroid : list pyval)
  : result (list (list pyval)) :=
  match centroid, all with
  | [], _ => Ok all
  | c :: centroid', row :: all' =>
      rest ← append_each all' centroid';
      Ok ((row ++ [c]) :: rest)
  | _ :: _, [] => Raise IndexError
  end.

(** The body of the third loop of [distance]:
    [sum += (all[i][0] - all[i][1])**2]. *)
Definition add_square (sum : num) (row : list pyval) : result num :=
  a ← py_index row 0;
  b ← py_index row 1;
  x ← as_num a;
  y ← as_num b;
  d ← num_sub x y;
  sq ← num_sq d;
  num_add sum sq.

(** [self.distance(point)] *)
Definition distance (dset : Dataset.t) (self : t) (point : pyval)
  : result float :=
  _ ← py_assert (Dataset.is_point point);
  n ← py_len point;
  _ ← py_assert (n =? Dataset.getDimension dset);
  coords ← py_items point;
  centroid ← py_items (getCentroid self);
  all ← append_each (map (fun x => [x]) coords) centroid;
  sum ← foldM add_square (NInt 0) all;
  num_root sum.

(** [max(values)]: the current maximum is replaced by an item that is
    greater than it. *)
Definition py_max (values : list float) : result float :=
  match values with
  | [] => Raise ValueError
  | v :: rest =>
      Ok (fold_left (fun current item =>
                       if fltb current item then item else current)
                    rest v)
  end.

(** [self.getRadius()] *)
Definition getRadius (dset : Dataset.t) (self : t) : result float :=
  contents ← getContents dset self;
  distances ← forM (distance dset self) contents;
  py_max distances.

(** [sum(column)]: the items are added from left to right, from 0, as
    the language reference defines [sum].  (CPython 3.12 and later add
    floats with a compensated sum, which can differ in the last bits.) *)
Definition py_sum (column : list pyval) : result num :=
  foldM (fun acc x => n ← as_num x; num_add acc n) (NInt 0) column.

(** The second loop of [update], for one point:
    [recomputation[i].append(point[i])] for [i] in [range(len(point))]. *)
Fixpoint scatter (recomputation : list (list pyval)) (point : list pyval)
  : result (list (list pyval)) :=
  match point, recomputation with
  | [], _ => Ok recomputation
  | x :: point', column :: recomputation' =>
      rest ← scatter recomputation' point';
      Ok ((column ++ [x]) :: rest)
  | _ :: _, [] => Raise IndexError
  end.

(** The body of the third loop of [update]:
    [sum(recomputation[i]) / len(recomputation[i])]. *)
Definition mean (column : list pyval) : result pyval :=
  total ← py_sum column;
  m ← num_truediv total (Z.of_nat (length column));
  Ok (PyFloat m).

(** [self.update()]: the flag returned and the cluster afterwards. *)
Definition update (dset : Dataset.t) (self : t) : result (bool * t) :=
  contents ← getContents dset self;
  match contents with
  | [] => Ok (true, self)
  | first :: _ =>
      width ← py_len first;
      columns ←
        foldM (fun recomputation point =>
                 coords ← py_items point;
                 scatter recomputation coords)
              (replicate (Z.to_nat width) []) contents;
      recomputation ← forM mean columns;
      let old_centroid := _centroid self in
      close ← np_allclose old_centroid (PyList recomputation);
      Ok (close, {| _centroid := PyList recomputation;
                    _indices := _indices self |})
  end.

End Cluster.

(** ** algorithm.py *)

Module Algorithm.

(** [x == seed] for an int [seed] and a float [x]. *)
Definition float_eq_int (x : float) (seed : Z) : bool :=
  match x with
  | S754_zero _ => seed =? 0
  | S754_finite s m e =>
      let v := if s then Z.neg m else Z.pos m in
      if 0 <=? e then seed =? v * 2 ^ e else seed * 2 ^ (- e) =? v
  | _ => false
  end.

(** [x == seed] for an int [seed]. *)
Definition eq_int (seed : Z) (x : pyval) : bool :=
  match x with
  | PyNum (NInt z) => z =? seed
  | PyNum (NFloat f) => float_eq_int f seed
  | _ => false
  end.

(** [value.count(seed)] *)
Definition count (seed : Z) (value : list pyval) : Z :=
  Z.of_nat (length (filter (fun x => eq_int seed x = true) value)).

(** The loop of [valid_seeds], which returns False at the first bad
    seed. *)
Fixpoint seeds_loop (value : list pyval) (size : Z) (rest : list pyval)
  : bool :=
  match rest with
  | [] => true
  | PyNum (NInt seed) :: rest' =>
      if (seed <? 0) || (seed >? size - 1) then false
      else if count seed value >? 1 then false
      else seeds_loop value size rest'
  | _ :: _ => false
  end.

(** [valid_seeds(value, size)] *)
Definition valid_seeds (value : pyval) (size : Z) : result bool :=
  _ ← py_assert (0 <? size);
  match value with
  | PyList items => Ok (seeds_loop items size items)
  | _ => Ok false
  end.

(** The attributes [_dataset] and [_cluster].  The clusters are
    distinct objects; a cluster is identified by its position in
    [_cluster]. *)
Record t := {
  _dataset : Dataset.t;
  _cluster : list Cluster.t
}.

Definition getClusters (self : t) : list Cluster.t := _cluster self.

(** [Algorithm(dset, k, seeds)].  The argument [sample] is the list
    that [random.sample(range(dset.getSize()), k)] returns when it is
    called. *)
Definition __init__ (dset : Dataset.t) (k seeds : pyval) (sample : list Z)
  : result t :=
  match k with
  | PyNum (NInt kz) =>
      _ ← py_assert ((0 <? kz) && (kz <=? Dataset.getSize dset));
      valid ← (if is_None seeds then Ok true
               else valid_seeds seeds (Dataset.getSize dset));
      _ ← py_assert valid;
      chosen ← (if negb (is_None seeds) then py_items seeds
                else Ok (map PyInt sample));
      clusters ←
        forM (fun seed =>
                point ← Dataset.getPoint dset seed;
                Cluster.__init__ dset point)
             chosen;
      Ok {| _dataset := dset; _cluster := clusters |}
  | _ => Raise AssertionError
  end.

(** What [random.sample(range(size), k)] can return. *)
Definition is_sample (size k : Z) (sample : list Z) : Prop :=
  Z.of_nat (length sample) = k /\
  NoDup sample /\
  Forall (fun i => 0 <= i < size) sample.

(** [min(values)]: the current minimum is replaced by an item that is
    less than it. *)
Definition py_min (values : list float) : result float :=
  match values with
  | [] => Raise ValueError
  | v :: rest =>
      Ok (fold_left (fun current item =>
                       if fltb item current then item else current)
                    rest v)
  end.

(** [[key for key in distances if distances[key] == minimum]]: the
    keys are the positions of the clusters, in insertion order. *)
Definition keys_at (minimum : float) (distances : list float) : list nat :=
  map fst
    (filter (fun kd => feqb (snd kd) minimum = true)
            (zip (seq 0 (length distances)) distances)).

(** [self._nearest(point)]: the position of the cluster returned. *)
Definition _nearest (self : t) (point : pyval) : result nat :=
  _ ← py_assert (Dataset.is_point point);
  n ← py_len point;
  _ ← py_assert (n =? Dataset.getDimension (_dataset self));
  distances ←
    forM (fun cluster => Cluster.distance (_dataset self) cluster point)
         (_cluster self);
  minimum ← py_min distances;
  py_index (keys_at minimum distances) 0.

(** The body of the second loop of [_partition]. *)
Definition assign (self : t) (index : Z) : result t :=
  point ← Dataset.getPoint (_dataset self) (PyInt index);
  j ← _nearest self point;
  cluster ← py_index (_cluster self) j;
  cluster' ← Cluster.addIndex (_dataset self) cluster (PyInt index);
  Ok {| _dataset := _dataset self;
        _cluster := <[j := cluster']> (_cluster self) |}.

(** [range(n)] *)
Definition range (n : nat) : list Z := map Z.of_nat (seq 0 n).

(** [self._partition()] *)
Definition _partition (self : t) : result t :=
  let cleared := {| _dataset := _dataset self;
                    _cluster := map Cluster.clear (_cluster self) |} in
  foldM assign cleared
        (range (length (Dataset.getContents (_dataset self)))).

(** [self._update()] *)
Definition _update (self : t) : result (bool * t) :=
  '(temp, clusters) ←
    foldM (fun (acc : bool * list Cluster.t) cluster =>
             let '(temp, updated) := acc in
             '(update, cluster') ← Cluster.update (_dataset self) cluster;
             Ok (if negb update then false else temp,
                 updated ++ [cluster']))
          (true, []) (_cluster self);
  Ok (temp, {| _dataset := _dataset self; _cluster := clusters |}).

(** [self.step()] *)
Definition step (self : t) : result (bool * t) :=
  partitioned ← _partition self;
  _update partitioned.

(** The loop of [run].  The list [trace] records, in order, the value
    returned by each call to [step]. *)
Fixpoint run_loop (n : nat) (self : t) (trace : list bool)
  : result (t * list bool) :=
  match n with
  | O => Ok (self, trace)
  | S n' =>
      '(converge, self') ← step self;
      if converge : bool then Ok (self', trace ++ [converge])
      else run_loop n' self' (trace ++ [converge])
  end.

(** [self.run(maxstep)]: the engine afterwards and the trace of the
    calls to [step]. *)
Definition run (self : t) (maxstep : pyval) : result (t * list bool) :=
  match maxstep with
  | PyNum (NInt m) =>
      _ ← py_assert (0 <=? m);
      run_loop (Z.to_nat m) self []
  | _ => Raise AssertionError
  end.

End Algorithm.

(** ** The update of a centroid, in the words of the specification

    The new centroid is the point whose [i]-th coordinate is the
    arithmetic mean of the [i]-th coordinates of the members, and the
    flag tells whether every coordinate of the new centroid is within
    the all-close tolerance of the old one. *)

Module Spec.

(** The [i]-th coordinate of a point. *)
Definition coordinate (i : nat) (point : pyval) : result pyval :=
  items ← py_items point;
  py_index items i.

(** The arithmetic mean of some numbers: their sum over their count. *)
Definition arithmetic_mean (xs : list pyval) : result float :=
  total ← Cluster.py_sum xs;
  num_truediv total (Z.of_nat (length xs)).

(** The mean of the [i]-th coordinates of the members. *)
Definition mean_coordinate (members : list pyval) (i : nat)
  : result float :=
  column ← forM (coordinate i) members;
  arithmetic_mean column.

(** One coordinate within the tolerance: relative 1e-5, absolute
    1e-8. *)
Definition within_tolerance (old new : float) : bool :=
  np_isclose (old, new).

(** [recomputeCentroid()] on a cluster whose points have [D]
    coordinates. *)
Definition recomputeCentroid (dset : Dataset.t) (self : Cluster.t) (D : nat)
  : result (bool * Cluster.t) :=
  members ← Cluster.getContents dset self;
  match members with
  | [] => Ok (true, self)
  | _ :: _ =>
      new ← forM (mean_coordinate members) (seq 0 D);
      old ← np_array (Cluster._centroid self);
      Ok (forallb (fun on => within_tolerance (fst on) (snd on))
                  (zip old new),
          {| Cluster._centroid := PyList (map PyFloat new);
             Cluster._indices := Cluster._indices self |})
  end.

End Spec.

(** ** Concrete datasets and engines *)

Module Examples.

(** A point with int coordinates. *)
Definition ipoint (xs : list Z) : pyval := PyTuple (map PyInt xs).

(** A point with float coordinates, given as integers. *)
Definition fpoint (xs : list Z) : pyval :=
  PyTuple (map (fun x => PyFloat (round_int x)) xs).

(** The points [(0.0,), (1.0,), (10.0,), (11.0,)] in dimension 1. *)
Definition line : Dataset.t :=
  {| Dataset._dimension := 1;
     Dataset._contents := [fpoint [0]; fpoint [1]; fpoint [10]; fpoint [11]] |}.

(** [Algorithm(line, 2, [0, 2])] *)
Definition line_engine : Algorithm.t :=
  {| Algorithm._dataset := line;
     Algorithm._cluster :=
       [ {| Cluster._centroid := fpoint [0]; Cluster._indices := [] |};
         {| Cluster._centroid := fpoint [10]; Cluster._indices := [] |} ] |}.

(** A float given by its mantissa and exponent. *)
Definition fl (m : positive) (e : Z) : pyval :=
  PyFloat (S754_finite false m e).

(** [line_engine] after one call to [step]: the centroids are
    [[0.5]] and [[10.5]]. *)
Definition line_engine1 : Algorithm.t :=
  {| Algorithm._dataset := line;
     Algorithm._cluster :=
       [ {| Cluster._centroid := PyList [fl 4503599627370496 (-53)];
            Cluster._indices := [0; 1] |};
         {| Cluster._centroid := PyList [fl 5910974510923776 (-49)];
            Cluster._indices := [2; 3] |} ] |}.

(** [line_engine] after [_partition]. *)
Definition line_partitioned : Algorithm.t :=
  {| Algorithm._dataset := line;
     Algorithm._cluster :=
       [ {| Cluster._centroid := fpoint [0]; Cluster._indices := [0; 1] |};
         {| Cluster._centroid := fpoint [10]; Cluster._indices := [2; 3] |} ] |}.

(** The first cluster of [line_engine], holding the first two
    points. *)
Definition pair_cluster : Cluster.t :=
  {| Cluster._centroid := fpoint [0]; Cluster._indices := [0; 1] |}.

(** Five points in dimension 1, far from the origin. *)
Definition far : Dataset.t :=
  {| Dataset._dimension := 1;
     Dataset._contents :=
       [ipoint [1000000]; ipoint [1000010]; ipoint [1000100];
        ipoint [1000051]; ipoint [1000149]] |}.

(** [Algorithm(far, 2, [0, 2])] *)
Definition far_engine : Algorithm.t :=
  {| Algorithm._dataset := far;
     Algorithm._cluster :=
       [ {| Cluster._centroid := ipoint [1000000]; Cluster._indices := [] |};
         {| Cluster._centroid := ipoint [1000100]; Cluster._indices := [] |} ] |}.

(** [far_engine] after one call to [step]: the centroids are
    [[1000005.0]] and [[1000100.0]]. *)
Definition far_engine1 : Algorithm.t :=
  {| Algorithm._dataset := far;
     Algorithm._cluster :=
       [ {| Cluster._centroid := PyList [PyFloat (round_int 1000005)];
            Cluster._indices := [0; 1] |};
         {| Cluster._centroid := PyList [PyFloat (round_int 1000100)];
            Cluster._indices := [2; 3; 4] |} ] |}.

(** Two points in dimension 1. *)
Definition two : Dataset.t :=
  {| Dataset._dimension := 1;
     Dataset._contents := [ipoint [0]; ipoint [5]] |}.

End Examples.

(** ** Predicates of the statements *)

(** The invariant that the class documents: every stored point is a
    tuple of numbers of the declared dimension. *)
Definition well_formed (dset : Dataset.t) : Prop :=
  Forall (fun point =>
            Dataset.is_point point = true /\
            py_len point = Ok (Dataset.getDimension dset))
         (Dataset.getContents dset).

(** A point of [D] coordinates, for a natural number [D]. *)
Definition has_dimension (D : nat) (point : pyval) : Prop :=
  exists items, py_items point = Ok items /\ length items = D.

(** A valid index into a dataset. *)
Definition index_in_range (dset : Dataset.t) (i : Z) : Prop :=
  0 <= i < Dataset.getSize dset.

(** The invariant of a cluster: no index twice, every index valid. *)
Definition valid_cluster (dset : Dataset.t) (c : Cluster.t) : Prop :=
  NoDup (Cluster.getIndices c) /\
  Forall (index_in_range dset) (Cluster.getIndices c).

(** An int, or a float that is neither an infinity nor a NaN. *)
Definition finite_number (v : pyval) : bool :=
  match v with
  | PyNum (NInt _) => true
  | PyNum (NFloat f) => is_finite f
  | _ => false
  end.

(** The cluster that the constructor of the engine builds for a seed. *)
Definition seed_cluster (point : pyval) : Cluster.t :=
  {| Cluster._centroid := point; Cluster._indices := [] |}.

(** The indices held by the clusters of an engine, cluster after
    cluster. *)
Definition members (clusters : list Cluster.t) : list Z :=
  concat (map Cluster._indices clusters).

(** The place of a float in the order of [SFcompare]: its class, then
    its exponent and its mantissa, negated for a negative number.  A NaN
    has no place. *)
Definition rank (f : float) : option (Z * Z * Z) :=
  match f with
  | S754_nan => None
  | S754_infinity true => Some (-2, 0, 0)
  | S754_infinity false => Some (2, 0, 0)
  | S754_zero _ => Some (0, 0, 0)
  | S754_finite true m e => Some (-1, - e, Z.neg m)
  | S754_finite false m e => Some (1, e, Z.pos m)
  end.

Definition lex_lt (p q : Z * Z * Z) : Prop :=
  let '(a, b, c) := p in
  let '(a', b', c') := q in
  a < a' \/ (a = a' /\ (b < b' \/ (b = b' /\ c < c'))).

(** * Properties *)

(** ** The result monad *)

Lemma bind_Ok {A B : Type} (m : result A) (f : A -> result B) (b : B) :
  m ≫= f = Ok b -> exists a, m = Ok a /\ f a = Ok b.
Proof.
  destruct m as [a|e]; simpl; intros H; [eauto | discriminate].
Qed.

Lemma py_assert_Ok (cond : bool) (u : unit) :
  py_assert cond = Ok u -> cond = true.
Proof. destruct cond; [reflexivity | discriminate]. Qed.

(** Splits the hypotheses [m ≫= f = Ok b] of the context. *)
Ltac inv_bind :=
  repeat match goal with
  | H : _ ≫= _ = Ok _ |- _ =>
      let a := fresh "a" in
      let Ha := fresh "Ha" in
      apply bind_Ok in H as (a & Ha & H)
  | H : py_assert _ = Ok _ |- _ => apply py_assert_Ok in H
  | H : Ok _ = Ok _ |- _ => injection H as H; try subst
  | H : Raise _ = Ok _ |- _ => discriminate H
  end.

Lemma py_index_Ok {A : Type} (l : list A) (i : nat) (x : A) :
  py_index l i = Ok x <-> l !! i = Some x.
Proof.
  unfold py_index. destruct (l !! i); split; intros H; congruence.
Qed.

Lemma forM_length {A B : Type} (f : A -> result B) (xs : list A) (ys : list B) :
  forM f xs = Ok ys -> length ys = length xs.
Proof.
  revert ys. induction xs as [|x xs IH]; simpl; intros ys H.
  - inv_bind. reflexivity.
  - inv_bind. simpl. f_equal. eauto.
Qed.

Lemma forM_lookup {A B : Type} (f : A -> result B) (xs : list A) (ys : list B) :
  forM f xs = Ok ys ->
  forall i x, xs !! i = Some x -> exists y, ys !! i = Some y /\ f x = Ok y.
Proof.
  revert ys. induction xs as [|x0 xs IH]; simpl; intros ys H i x Hi.
  - destruct i; discriminate.
  - inv_bind. destruct i as [|i]; simpl in *.
    + injection Hi as <-. eauto.
    + eauto.
Qed.

(** ** The examples are states of the program *)

Example line_built :
  Dataset.__init__ (PyInt 1)
    (PyList [Examples.fpoint [0]; Examples.fpoint [1];
             Examples.fpoint [10]; Examples.fpoint [11]])
  = Ok Examples.line.
Proof. reflexivity. Qed.

Example line_engine_built :
  Algorithm.__init__ Examples.line (PyInt 2) (PyList [PyInt 0; PyInt 2]) []
  = Ok Examples.line_engine.
Proof. vm_compute. reflexivity. Qed.

Example line_engine_step :
  Algorithm.step Examples.line_engine = Ok (false, Examples.line_engine1).
Proof. vm_compute. reflexivity. Qed.

Example pair_cluster_built :
  (c0 ← Cluster.__init__ Examples.line (Examples.fpoint [0]);
   c1 ← Cluster.addIndex Examples.line c0 (PyInt 0);
   Cluster.addIndex Examples.line c1 (PyInt 1))
  = Ok Examples.pair_cluster.
Proof. vm_compute. reflexivity. Qed.

Example far_built :
  Dataset.__init__ (PyInt 1)
    (PyList [Examples.ipoint [1000000]; Examples.ipoint [1000010];
             Examples.ipoint [1000100]; Examples.ipoint [1000051];
             Examples.ipoint [1000149]])
  = Ok Examples.far.
Proof. reflexivity. Qed.

Example two_built :
  Dataset.__init__ (PyInt 1)
    (PyList [Examples.ipoint [0]; Examples.ipoint [5]])
  = Ok Examples.two.
Proof. reflexivity. Qed.

(** ** The dataset *)

Lemma addPoint_well_formed (dset dset' : Dataset.t) (point : pyval) :
  well_formed dset ->
  Dataset.addPoint dset point = Ok dset' ->
  well_formed dset'.
Proof.
  unfold Dataset.addPoint, well_formed. intros Hwf H. inv_bind.
  unfold Dataset.getContents, Dataset.getDimension in *. simpl.
  apply Forall_app. split; [exact Hwf|].
  constructor; [|constructor]. split; [assumption|].
  rewrite Ha0. f_equal. apply Z.eqb_eq. assumption.
Qed.

Lemma init_None_well_formed (dim : pyval) (dset : Dataset.t) :
  Dataset.__init__ dim PyNone = Ok dset -> well_formed dset.
Proof.
  unfold Dataset.__init__. destruct dim as [|[d|]| | |]; try discriminate.
  intros H. inv_bind. constructor.
Qed.

(** C10. [Dataset(dim, [])] creates no dataset: [is_point_list] reads
    [value[0]] of the empty list and raises IndexError, which is what
    the constructor raises when [dim] is a valid dimension, instead of
    the AssertionError of a failed precondition. *)
Theorem init_empty_list_IndexError :
  Dataset.is_point_list (PyList []) = Raise IndexError /\
  (forall dim dset, Dataset.__init__ dim (PyList []) <> Ok dset) /\
  (forall d, 0 < d -> Dataset.__init__ (PyInt d) (PyList []) = Raise IndexError).
Proof.
  split; [reflexivity|]. split.
  - intros dim dset. unfold Dataset.__init__.
    destruct dim as [|[d|]| | |]; try discriminate.
    destruct (py_assert (0 <? d)) as [[]|]; simpl; discriminate.
  - intros d Hd. unfold Dataset.__init__, PyInt.
    apply Z.ltb_lt in Hd. rewrite Hd. reflexivity.
Qed.

Lemma init_empty_list_IndexError_witness :
  0 < 2 /\ Dataset.__init__ (PyInt 2) (PyList []) = Raise IndexError.
Proof.
  split; [lia|].
  apply (proj2 (proj2 init_empty_list_IndexError) 2). lia.
Defined.

(** C6, at the failing input [Dataset(2, [(1,)])]: the constructor
    accepts initial contents whose points do not have the declared
    dimension, because [is_point_list] compares the lengths with that of
    the first point and nothing compares them with [dim]. *)
Theorem init_keeps_wrong_dimension :
  exists dset,
    Dataset.__init__ (PyInt 2) (PyList [Examples.ipoint [1]]) = Ok dset /\
    Dataset.getDimension dset = 2 /\
    Dataset.getPoint dset (PyInt 0) = Ok (Examples.ipoint [1]) /\
    py_len (Examples.ipoint [1]) = Ok 1.
Proof.
  eexists. split; [vm_compute; reflexivity|].
  repeat split; vm_compute; reflexivity.
Qed.

(** ** A cluster *)

(** C8. On a cluster without members [update] returns True and leaves
    the cluster, its centroid included, as it was. *)
Theorem update_no_members (dset : Dataset.t) (self : Cluster.t) :
  Cluster.getIndices self = [] ->
  Cluster.update dset self = Ok (true, self).
Proof.
  unfold Cluster.update, Cluster.getContents. intros ->. reflexivity.
Qed.

Lemma update_no_members_witness :
  Cluster.update Examples.line
    {| Cluster._centroid := Examples.fpoint [10]; Cluster._indices := [] |}
  = Ok (true,
        {| Cluster._centroid := Examples.fpoint [10]; Cluster._indices := [] |}).
Proof. apply update_no_members. reflexivity. Defined.

(** Whenever [update] recomputes a centroid, what it stores is a list. *)
Lemma update_centroid_list (dset : Dataset.t) (self self' : Cluster.t)
    (b : bool) (first : pyval) (rest : list pyval) :
  Cluster.getContents dset self = Ok (first :: rest) ->
  Cluster.update dset self = Ok (b, self') ->
  is_list (Cluster.getCentroid self') = true /\
  is_tuple (Cluster.getCentroid self') = false.
Proof.
  intros Hmembers H. unfold Cluster.update in H. rewrite Hmembers in H.
  cbn [mbind result_bind] in H.
  apply bind_Ok in H as (width & _ & H).
  apply bind_Ok in H as (columns & _ & H).
  apply bind_Ok in H as (recomputation & _ & H).
  apply bind_Ok in H as (close & _ & H).
  injection H as <- <-. split; reflexivity.
Qed.

(** C9, at the failing input: a cluster over [(0.0,), (1.0,), ...] with
    centroid [(0.0,)] and the members 0 and 1.  Before [update] the
    centroid is a tuple; after it the centroid is the list [[0.5]]. *)
Theorem update_stores_a_list :
  is_tuple (Cluster.getCentroid Examples.pair_cluster) = true /\
  exists b self',
    Cluster.update Examples.line Examples.pair_cluster = Ok (b, self') /\
    Cluster.getCentroid self' = PyList [Examples.fl 4503599627370496 (-53)] /\
    is_tuple (Cluster.getCentroid self') = false.
Proof.
  split; [reflexivity|].
  exists false,
    {| Cluster._centroid := PyList [Examples.fl 4503599627370496 (-53)];
       Cluster._indices := [0; 1] |}.
  split; [vm_compute; reflexivity|]. split; reflexivity.
Qed.

(** ** The driver [run] *)

Lemma run_loop_trace (n : nat) :
  forall self trace0 self' trace,
    Algorithm.run_loop n self trace0 = Ok (self', trace) ->
    exists calls,
      trace = trace0 ++ calls /\
      (length calls <= n)%nat /\
      (forall i, calls !! i = Some true -> S i = length calls) /\
      (Forall (fun b => b = false) calls -> length calls = n).
Proof.
  induction n as [|n IH]; simpl; intros self trace0 self' trace H.
  - inv_bind. exists []. rewrite app_nil_r.
    repeat split; [simpl; lia | intros i Hi; destruct i; discriminate].
  - inv_bind. destruct a as [converge self1]. destruct converge.
    + inv_bind. exists [true]. repeat split; [simpl; lia | |].
      * intros [|i] Hi; [reflexivity | destruct i; discriminate].
      * intros Hall. inversion Hall; discriminate.
    + apply IH in H as (calls & -> & Hlen & Hlast & Hfull).
      exists (false :: calls). rewrite <- app_assoc. simpl.
      repeat split; [lia | |].
      * intros [|i] Hi; [discriminate|]. simpl in Hi. f_equal. auto.
      * intros Hall. inversion Hall; subst. f_equal. auto.
Qed.

(** C4. [run(maxstep)] for an int [maxstep >= 0]: the calls to [step]
    are at most [maxstep]; a call that returns True is the last one;
    when no call returns True there are exactly [maxstep] calls; and
    [run(0)] makes no call and leaves the engine as it was. *)
Theorem run_bounded_steps (self self' : Algorithm.t) (maxstep : Z)
    (trace : list bool) :
  Algorithm.run self (PyInt maxstep) = Ok (self', trace) ->
  0 <= maxstep /\
  Z.of_nat (length trace) <= maxstep /\
  (forall i, trace !! i = Some true -> S i = length trace) /\
  (Forall (fun b => b = false) trace -> Z.of_nat (length trace) = maxstep) /\
  (maxstep = 0 -> trace = [] /\ self' = self).
Proof.
  unfold Algorithm.run, PyInt. intros H.
  apply bind_Ok in H as ([] & Hpre%py_assert_Ok%Z.leb_le & H).
  split; [assumption|].
  destruct (Z.to_nat maxstep) as [|n] eqn:Hn.
  - simpl in H. inv_bind. simpl.
    repeat split; try lia. intros i Hi. destruct i; discriminate.
  - apply run_loop_trace in H as (calls & -> & Hlen & Hlast & Hfull).
    simpl. repeat split; try lia; auto.
    intros Hall. apply Hfull in Hall. lia.
Qed.

Lemma run_bounded_steps_witness :
  Algorithm.run Examples.line_engine (PyInt 5)
    = Ok (Examples.line_engine1, [false; true]) /\
  Z.of_nat (length [false; true]) <= 5.
Proof.
  assert (H : Algorithm.run Examples.line_engine (PyInt 5)
              = Ok (Examples.line_engine1, [false; true]))
    by (vm_compute; reflexivity).
  split; [exact H|].
  exact (proj1 (proj2 (run_bounded_steps _ _ _ _ H))).
Defined.

(** ** The partition *)

Lemma elem_of_concat {A : Type} (x : A) (ls : list (list A)) :
  x ∈ concat ls <-> exists l, x ∈ l /\ l ∈ ls.
Proof.
  induction ls as [|l0 ls IH]; simpl.
  - split; [intros H; inversion H | intros (l & _ & H); inversion H].
  - rewrite elem_of_app, IH. split.
    + intros [H|(l & Hx & Hl)]; [exists l0 | exists l];
        (split; [assumption|]); [constructor | by constructor].
    + intros (l & Hx & [->|Hl]%elem_of_cons); eauto.
Qed.

Lemma members_clear (clusters : list Cluster.t) :
  members (map Cluster.clear clusters) = [].
Proof.
  unfold members. induction clusters as [|c cs IH]; simpl; auto.
Qed.

Lemma members_insert (clusters : list Cluster.t) (j : nat) (c c' : Cluster.t)
    (z : Z) :
  clusters !! j = Some c ->
  Cluster._indices c' = Cluster._indices c ++ [z] ->
  Permutation (members (<[j := c']> clusters)) (z :: members clusters).
Proof.
  unfold members. revert j.
  induction clusters as [|c0 cs IH]; intros [|j] Hj Hc'; simpl in *;
    try discriminate.
  - injection Hj as ->. rewrite Hc'.
    rewrite <- (Permutation_cons_append (Cluster._indices c) z).
    reflexivity.
  - rewrite (IH j Hj Hc'). symmetry. apply Permutation_middle.
Qed.

Lemma contains_elem_of (z : Z) (indices : list Z) :
  Cluster.contains z indices = true <-> z ∈ indices.
Proof.
  unfold Cluster.contains. rewrite existsb_exists. split.
  - intros (x & Hx%list_elem_of_In & ->%Z.eqb_eq). assumption.
  - intros H. exists z. rewrite <- list_elem_of_In, Z.eqb_eq. auto.
Qed.

Lemma assign_members (self self' : Algorithm.t) (z : Z) :
  Algorithm.assign self z = Ok self' ->
  z ∉ members (Algorithm._cluster self) ->
  Algorithm._dataset self' = Algorithm._dataset self /\
  length (Algorithm._cluster self') = length (Algorithm._cluster self) /\
  Permutation (members (Algorithm._cluster self'))
              (z :: members (Algorithm._cluster self)).
Proof.
  unfold Algorithm.assign. intros H Hfresh.
  apply bind_Ok in H as (point & _ & H).
  apply bind_Ok in H as (j & _ & H).
  apply bind_Ok in H as (c & Hc%py_index_Ok & H).
  apply bind_Ok in H as (c' & Hadd & H).
  injection H as <-. simpl.
  split; [reflexivity|]. split; [apply length_insert|].
  unfold Cluster.addIndex, PyInt in Hadd.
  apply bind_Ok in Hadd as ([] & _ & Hadd).
  destruct (Cluster.contains z (Cluster._indices c)) eqn:Hin; simpl in Hadd.
  - exfalso. apply Hfresh. apply contains_elem_of in Hin.
    unfold members. apply elem_of_concat. exists (Cluster._indices c).
    split; [assumption|]. apply list_elem_of_fmap. exists c.
    split; [reflexivity|]. eapply list_elem_of_lookup_2; eassumption.
  - injection Hadd as <-. eapply members_insert; [eassumption | reflexivity].
Qed.

Lemma range_S (n : nat) :
  Algorithm.range (S n) = Algorithm.range n ++ [Z.of_nat n].
Proof. unfold Algorithm.range. rewrite seq_S, map_app. reflexivity. Qed.

Lemma elem_of_range (n : nat) (z : Z) :
  z ∈ Algorithm.range n <-> 0 <= z < Z.of_nat n.
Proof.
  unfold Algorithm.range. rewrite list_elem_of_fmap. split.
  - intros (i & -> & Hi%elem_of_seq). lia.
  - intros H. exists (Z.to_nat z). split; [lia|]. apply elem_of_seq. lia.
Qed.

Lemma NoDup_range (n : nat) : NoDup (Algorithm.range n).
Proof.
  unfold Algorithm.range. apply NoDup_fmap_2; [|apply NoDup_seq].
  intros x y H. lia.
Qed.

Lemma assign_loop (n : nat) :
  forall (a : nat) (self self' : Algorithm.t),
    foldM Algorithm.assign self (map Z.of_nat (seq a n)) = Ok self' ->
    Permutation (members (Algorithm._cluster self)) (Algorithm.range a) ->
    Algorithm._dataset self' = Algorithm._dataset self /\
    length (Algorithm._cluster self') = length (Algorithm._cluster self) /\
    Permutation (members (Algorithm._cluster self'))
                (Algorithm.range (a + n)).
Proof.
  induction n as [|n IH]; simpl; intros a self self' H Hperm.
  - injection H as <-. rewrite Nat.add_0_r. auto.
  - apply bind_Ok in H as (self1 & Hassign & H).
    apply assign_members in Hassign as (Hd & Hl & Hp).
    + apply IH in H as (Hd' & Hl' & Hp').
      * rewrite Hd', Hl', Hd, Hl. replace (a + S n)%nat with (S a + n)%nat by lia.
        auto.
      * rewrite Hp, Hperm, range_S. apply Permutation_cons_append.
    + rewrite Hperm, elem_of_range. lia.
Qed.

Lemma partition_permutation (self self' : Algorithm.t) :
  Algorithm._partition self = Ok self' ->
  Algorithm._dataset self' = Algorithm._dataset self /\
  length (Algorithm._cluster self') = length (Algorithm._cluster self) /\
  Permutation
    (members (Algorithm._cluster self'))
    (Algorithm.range (length (Dataset.getContents (Algorithm._dataset self)))).
Proof.
  unfold Algorithm._partition, Algorithm.range at 1. intros H.
  apply assign_loop in H; simpl in *.
  - rewrite length_map in H. exact H.
  - rewrite members_clear. reflexivity.
Qed.

Lemma NoDup_concat_unique {A : Type} (ls : list (list A)) :
  NoDup (concat ls) ->
  forall j j' l l' x,
    ls !! j = Some l -> ls !! j' = Some l' -> x ∈ l -> x ∈ l' -> j = j'.
Proof.
  induction ls as [|l0 ls IH]; simpl; intros Hnd j j' l l' x Hj Hj' Hx Hx'.
  - destruct j; discriminate.
  - apply NoDup_app in Hnd as (_ & Hdisj & Hnd).
    assert (Hrest : forall i l1, ls !! i = Some l1 -> x ∈ l1 -> x ∈ concat ls).
    { intros i l1 Hi Hx1. apply elem_of_concat. exists l1.
      split; [assumption|]. eapply list_elem_of_lookup_2; eassumption. }
    destruct j as [|j], j' as [|j']; simpl in *.
    + reflexivity.
    + injection Hj as <-. exfalso. eapply Hdisj; eauto.
    + injection Hj' as <-. exfalso. eapply Hdisj; eauto.
    + f_equal. eauto.
Qed.

Lemma NoDup_concat_each {A : Type} (ls : list (list A)) (l : list A) :
  NoDup (concat ls) -> l ∈ ls -> NoDup l.
Proof.
  induction ls as [|l0 ls IH]; simpl; intros Hnd Hl.
  - inversion Hl.
  - apply NoDup_app in Hnd as (Hnd0 & _ & Hnd).
    apply elem_of_cons in Hl as [->|Hl]; auto.
Qed.

(** C1. After [_partition], every index [0 .. size-1] of the dataset is
    in the indices of exactly one cluster of the engine, no cluster
    holds an index twice, and the clusters hold nothing else.  The
    dataset and the number of clusters are as before. *)
Theorem partition_exactly_once (self self' : Algorithm.t) :
  Algorithm._partition self = Ok self' ->
  let size := Dataset.getSize (Algorithm._dataset self') in
  let clusters := Algorithm.getClusters self' in
  (forall i, 0 <= i < size ->
     exists j c,
       clusters !! j = Some c /\ i ∈ Cluster.getIndices c /\
       forall j' c',
         clusters !! j' = Some c' -> i ∈ Cluster.getIndices c' -> j' = j) /\
  (forall c, c ∈ clusters -> NoDup (Cluster.getIndices c)) /\
  (forall c i, c ∈ clusters -> i ∈ Cluster.getIndices c -> 0 <= i < size) /\
  Permutation (members clusters) (Algorithm.range (Z.to_nat size)).
Proof.
  intros H. apply partition_permutation in H as (Hd & _ & Hperm).
  unfold Dataset.getSize, Algorithm.getClusters, Cluster.getIndices.
  rewrite Hd, Nat2Z.id. simpl.
  set (n := length (Dataset.getContents (Algorithm._dataset self))) in *.
  set (clusters := Algorithm._cluster self') in *.
  assert (Hnd : NoDup (members clusters)).
  { rewrite Hperm. apply NoDup_range. }
  assert (Hin : forall c i, c ∈ clusters -> i ∈ Cluster._indices c ->
                            i ∈ members clusters).
  { intros c i Hc Hi. apply elem_of_concat. exists (Cluster._indices c).
    split; [assumption|]. apply list_elem_of_fmap. eauto. }
  repeat split.
  - intros i Hi. apply elem_of_range in Hi. rewrite <- Hperm in Hi.
    apply elem_of_concat in Hi as (l & Hil & Hl).
    apply list_elem_of_fmap in Hl as (c & -> & Hc).
    apply list_elem_of_lookup in Hc as (j & Hj).
    exists j, c. repeat split; try assumption.
    intros j' c' Hj' Hi'.
    eapply (NoDup_concat_unique _ Hnd j' j);
      [| | exact Hi' | exact Hil]; rewrite list_lookup_fmap.
    + rewrite Hj'. reflexivity.
    + rewrite Hj. reflexivity.
  - intros c Hc. eapply NoDup_concat_each; [exact Hnd|].
    apply list_elem_of_fmap. eauto.
  - apply (Hin c i H) in H0. rewrite Hperm in H0.
    apply elem_of_range in H0. lia.
  - apply (Hin c i H) in H0. rewrite Hperm in H0.
    apply elem_of_range in H0. lia.
  - exact Hperm.
Qed.

Lemma partition_exactly_once_witness :
  Algorithm._partition Examples.line_engine = Ok Examples.line_partitioned /\
  Permutation (members (Algorithm.getClusters Examples.line_partitioned))
              [0; 1; 2; 3].
Proof.
  assert (H : Algorithm._partition Examples.line_engine
              = Ok Examples.line_partitioned)
    by (vm_compute; reflexivity).
  split; [exact H|].
  exact (proj2 (proj2 (proj2 (partition_exactly_once _ _ H)))).
Defined.

(** ** One step *)

Lemma update_loop (dset : Dataset.t) (clusters : list Cluster.t) :
  forall temp0 updated0 temp updated,
    foldM (fun (acc : bool * list Cluster.t) cluster =>
             let '(temp, updated) := acc in
             '(update, cluster') ← Cluster.update dset cluster;
             Ok (if negb update then false else temp, updated ++ [cluster']))
          (temp0, updated0) clusters = Ok (temp, updated) ->
    length updated = (length updated0 + length clusters)%nat.
Proof.
  induction clusters as [|c cs IH]; simpl; intros temp0 updated0 temp updated H.
  - injection H as <- <-. lia.
  - apply bind_Ok in H as (acc & Hc & H).
    apply bind_Ok in Hc as ([b c'] & _ & Hc). injection Hc as <-.
    apply IH in H. rewrite H, length_app. simpl. lia.
Qed.

Lemma update_all_frame (self self' : Algorithm.t) (b : bool) :
  Algorithm._update self = Ok (b, self') ->
  Algorithm._dataset self' = Algorithm._dataset self /\
  length (Algorithm._cluster self') = length (Algorithm._cluster self).
Proof.
  unfold Algorithm._update. intros H.
  apply bind_Ok in H as ([temp clusters] & Hloop & H).
  injection H as <- <-. simpl. split; [reflexivity|].
  apply update_loop in Hloop. exact Hloop.
Qed.

(** A step changes neither the dataset nor the number of clusters. *)
Lemma step_frame (self self' : Algorithm.t) (b : bool) :
  Algorithm.step self = Ok (b, self') ->
  Algorithm._dataset self' = Algorithm._dataset self /\
  length (Algorithm._cluster self') = length (Algorithm._cluster self).
Proof.
  unfold Algorithm.step. intros H.
  apply bind_Ok in H as (p & Hp & H).
  apply partition_permutation in Hp as (Hd & Hl & _).
  apply update_all_frame in H as (Hd' & Hl').
  rewrite Hd', Hl'. auto.
Qed.

Lemma clear_centroids (cs1 cs2 : list Cluster.t) :
  map Cluster.getCentroid cs1 = map Cluster.getCentroid cs2 ->
  map Cluster.clear cs1 = map Cluster.clear cs2.
Proof.
  revert cs2. induction cs1 as [|c1 cs1 IH]; intros [|c2 cs2] H;
    simpl in *; try discriminate; [reflexivity|].
  injection H as Hc H. unfold Cluster.clear at 1 3.
  unfold Cluster.getCentroid in Hc. rewrite Hc. f_equal. auto.
Qed.

(** A step reads the centroids and the dataset, not the indices that the
    clusters hold when it starts. *)
Lemma step_reads_centroids (self1 self2 : Algorithm.t) :
  Algorithm._dataset self1 = Algorithm._dataset self2 ->
  map Cluster.getCentroid (Algorithm.getClusters self1) =
    map Cluster.getCentroid (Algorithm.getClusters self2) ->
  Algorithm.step self1 = Algorithm.step self2.
Proof.
  unfold Algorithm.getClusters. intros Hd Hc.
  unfold Algorithm.step, Algorithm._partition.
  rewrite Hd. rewrite (clear_centroids _ _ Hc). reflexivity.
Qed.

(** C7, as amended.  When [step] returns True and leaves the centroid of
    every cluster as it was, the next call to [step] returns True as
    well, and leaves the engine as it found it. *)
Theorem step_fixed_point (self self' : Algorithm.t) :
  Algorithm.step self = Ok (true, self') ->
  map Cluster.getCentroid (Algorithm.getClusters self') =
    map Cluster.getCentroid (Algorithm.getClusters self) ->
  Algorithm.step self' = Ok (true, self').
Proof.
  intros Hstep Hc. rewrite <- Hstep.
  apply step_reads_centroids; [|exact Hc].
  apply step_frame in Hstep as [Hd _]. exact Hd.
Qed.

Lemma step_fixed_point_witness :
  Algorithm.step Examples.line_engine1 = Ok (true, Examples.line_engine1).
Proof.
  assert (H : Algorithm.step Examples.line_engine1
              = Ok (true, Examples.line_engine1))
    by (vm_compute; reflexivity).
  exact (step_fixed_point _ _ H eq_refl).
Defined.

(** C7 fails as stated.  On the dataset [far] with the seeds [0] and
    [2], the first step moves the first centroid from [1000000] to
    [1000005.0], which is within the tolerance, so it returns True; the
    point [1000051] is then nearer to the first centroid, the second
    step moves it to the first cluster, both centroids move by more than
    the tolerance, and the second step returns False. *)
Lemma step_true_then_false :
  Algorithm.__init__ Examples.far (PyInt 2) (PyList [PyInt 0; PyInt 2]) []
    = Ok Examples.far_engine /\
  Algorithm.step Examples.far_engine = Ok (true, Examples.far_engine1) /\
  exists self2,
    Algorithm.step Examples.far_engine1 = Ok (false, self2) /\
    map Cluster.getIndices (Algorithm.getClusters self2) = [[0; 1; 3]; [2; 4]].
Proof.
  split; [vm_compute; reflexivity|].
  split; [vm_compute; reflexivity|].
  destruct (Algorithm.step Examples.far_engine1) as [[b self2]|e] eqn:H;
    vm_compute in H; [|discriminate H].
  injection H as <- <-. eexists. split; reflexivity.
Qed.

(** ** The order of floats *)

Lemma compare_rank (x y : float) :
  match SFcompare x y with
  | None => rank x = None \/ rank y = None
  | Some Lt => exists p q, rank x = Some p /\ rank y = Some q /\ lex_lt p q
  | Some Eq => exists p, rank x = Some p /\ rank y = Some p
  | Some Gt => exists p q, rank x = Some p /\ rank y = Some q /\ lex_lt q p
  end.
Proof.
  destruct x as [sx|sx| |sx mx ex], y as [sy|sy| |sy my ey];
    try destruct sx; try destruct sy; simpl; auto;
    try (eexists; split; reflexivity);
    try (eexists _, _; split; [reflexivity|]; split; [reflexivity|];
         simpl; lia).
  - destruct (Z.compare_spec ex ey) as [->| |]; simpl;
      [change (Pos.compare_cont Eq mx my) with (Pos.compare mx my);
       destruct (Pos.compare_spec mx my) as [->| |]; simpl|..];
      try (eexists; split; reflexivity);
      eexists _, _; (split; [reflexivity|]); (split; [reflexivity|]);
      simpl; lia.
  - destruct (Z.compare_spec ex ey) as [->| |]; simpl;
      [change (Pos.compare_cont Eq mx my) with (Pos.compare mx my);
       destruct (Pos.compare_spec mx my) as [->| |]; simpl|..];
      try (eexists; split; reflexivity);
      eexists _, _; (split; [reflexivity|]); (split; [reflexivity|]);
      simpl; lia.
Qed.

Lemma lex_lt_trans p q r : lex_lt p q -> lex_lt q r -> lex_lt p r.
Proof. destruct p as [[??]?], q as [[??]?], r as [[??]?]. simpl. lia. Qed.

Lemma lex_lt_irrefl p : ~ lex_lt p p.
Proof. destruct p as [[??]?]. simpl. lia. Qed.

Lemma fltb_rank (x y : float) :
  fltb x y = true <->
  exists p q, rank x = Some p /\ rank y = Some q /\ lex_lt p q.
Proof.
  unfold fltb, SFltb. pose proof (compare_rank x y) as H.
  destruct (SFcompare x y) as [[]|]; split; try discriminate; auto.
  - destruct H as (p & Hx & Hy). intros (p' & q' & Hx' & Hy' & Hlt).
    exfalso. apply (lex_lt_irrefl p). congruence.
  - destruct H as (p & q & Hx & Hy & Hgt). intros (p' & q' & Hx' & Hy' & Hlt).
    exfalso. apply (lex_lt_irrefl p). eapply lex_lt_trans; [|exact Hgt].
    congruence.
  - intros (p' & q' & Hx' & Hy' & Hlt). destruct H; congruence.
Qed.

Lemma feqb_rank (x y : float) :
  feqb x y = true <-> exists p, rank x = Some p /\ rank y = Some p.
Proof.
  unfold feqb, SFeqb. pose proof (compare_rank x y) as H.
  destruct (SFcompare x y) as [[]|]; split; try discriminate; auto.
  - destruct H as (p & q & Hx & Hy & Hlt). intros (p' & Hx' & Hy').
    exfalso. apply (lex_lt_irrefl p). congruence.
  - destruct H as (p & q & Hx & Hy & Hlt). intros (p' & Hx' & Hy').
    exfalso. apply (lex_lt_irrefl p). congruence.
  - intros (p' & Hx' & Hy'). destruct H; congruence.
Qed.

Lemma fleb_rank (x y : float) :
  fleb x y = true <->
  exists p q, rank x = Some p /\ rank y = Some q /\ ~ lex_lt q p.
Proof.
  unfold fleb, SFleb. pose proof (compare_rank x y) as H.
  destruct (SFcompare x y) as [[]|]; split; try discriminate; auto.
  - destruct H as (p & Hx & Hy). intros _. exists p, p.
    repeat split; auto using lex_lt_irrefl.
  - destruct H as (p & q & Hx & Hy & Hlt). intros _. exists p, q.
    repeat split; auto. intros Hgt.
    apply (lex_lt_irrefl p). eapply lex_lt_trans; eassumption.
  - destruct H as (p & q & Hx & Hy & Hgt). intros (p' & q' & Hx' & Hy' & Hn).
    exfalso. apply Hn. congruence.
  - intros (p' & q' & Hx' & Hy' & Hn). destruct H; congruence.
Qed.

Lemma rank_nan (x : float) : is_nan x = false <-> exists p, rank x = Some p.
Proof.
  destruct x as [[]|[]| |[] m e]; simpl; split; intros H; eauto;
    try discriminate. destruct H; discriminate.
Qed.

Lemma fltb_trans (x y z : float) :
  fltb x y = true -> fltb y z = true -> fltb x z = true.
Proof.
  rewrite !fltb_rank. intros (p & q & Hx & Hy & H1) (q' & r & Hy' & Hz & H2).
  exists p, r. repeat split; auto. eapply lex_lt_trans; [exact H1|]. congruence.
Qed.

Lemma fltb_irrefl (x : float) : fltb x x = false.
Proof.
  apply not_true_is_false. rewrite fltb_rank. intros (p & q & Hx & Hy & H).
  apply (lex_lt_irrefl p). congruence.
Qed.

Lemma fltb_feqb (x y z : float) :
  fltb x y = true -> feqb y z = true -> fltb x z = true.
Proof.
  rewrite !fltb_rank, feqb_rank.
  intros (p & q & Hx & Hy & H1) (q' & Hy' & Hz).
  exists p, q. repeat split; auto; congruence.
Qed.

Lemma feqb_trans (x y z : float) :
  feqb x y = true -> feqb y z = true -> feqb x z = true.
Proof.
  rewrite !feqb_rank. intros (p & Hx & Hy) (q & Hy' & Hz).
  exists p. split; congruence.
Qed.

Lemma feqb_refl (x : float) : is_nan x = false -> feqb x x = true.
Proof. rewrite rank_nan, feqb_rank. intros (p & Hp). eauto. Qed.

Lemma feqb_not_nan (x y : float) : feqb x y = true -> is_nan x = false.
Proof. rewrite rank_nan, feqb_rank. intros (p & Hp & _). eauto. Qed.

Lemma fleb_of_not_fltb (x y : float) :
  is_nan x = false -> is_nan y = false -> fltb x y = false -> fleb y x = true.
Proof.
  rewrite !rank_nan, fleb_rank. intros (p & Hp) (q & Hq) Hlt.
  exists q, p. repeat split; auto. intros H.
  apply not_true_iff_false in Hlt. apply Hlt. apply fltb_rank. eauto.
Qed.

(** ** The nearest cluster *)

Lemma min_loop (rest : list float) :
  forall (current : float) (seen : list float),
    current ∈ seen ->
    (forall x, x ∈ seen -> fltb x current = false) ->
    let m := fold_left (fun current item =>
                          if fltb item current then item else current)
                       rest current in
    m ∈ seen ++ rest /\ forall x, x ∈ seen ++ rest -> fltb x m = false.
Proof.
  induction rest as [|item rest IH]; simpl; intros current seen Hin Hmin.
  - rewrite app_nil_r. auto.
  - replace (seen ++ item :: rest) with ((seen ++ [item]) ++ rest)
      by (rewrite <- app_assoc; reflexivity).
    destruct (fltb item current) eqn:Hlt; apply IH.
    + apply elem_of_app. right. constructor.
    + intros x [Hx|Hx%list_elem_of_singleton]%elem_of_app.
      * apply not_true_is_false. intros Hxi.
        pose proof (fltb_trans _ _ _ Hxi Hlt) as Hxc.
        rewrite (Hmin x Hx) in Hxc. discriminate.
      * subst x. apply fltb_irrefl.
    + apply elem_of_app. auto.
    + intros x [Hx|Hx%list_elem_of_singleton]%elem_of_app; [auto|].
      subst x. exact Hlt.
Qed.

Lemma py_min_Ok (values : list float) (m : float) :
  Algorithm.py_min values = Ok m ->
  m ∈ values /\ forall x, x ∈ values -> fltb x m = false.
Proof.
  destruct values as [|v rest]; simpl; intros H; [discriminate|].
  injection H as <-.
  apply (min_loop rest v [v]).
  - constructor.
  - intros x ->%list_elem_of_singleton. apply fltb_irrefl.
Qed.

Lemma py_min_total (values : list float) :
  values <> [] -> exists m, Algorithm.py_min values = Ok m.
Proof. destruct values; [congruence|]. simpl. eauto. Qed.

Lemma keys_head (minimum : float) (distances : list float) :
  forall (a j : nat),
    map fst (filter (fun kd => feqb (snd kd) minimum = true)
                    (zip (seq a (length distances)) distances)) !! 0%nat
      = Some j ->
    (a <= j)%nat /\
    exists d, distances !! (j - a)%nat = Some d /\ feqb d minimum = true /\
      forall i d', (i < j - a)%nat -> distances !! i = Some d' ->
                   feqb d' minimum = false.
Proof.
  induction distances as [|d0 ds IH]; simpl; intros a j H; [discriminate|].
  rewrite filter_cons in H. simpl in H.
  destruct (decide (feqb d0 minimum = true)) as [Heq|Hne]; simpl in H.
  - injection H as <-. split; [lia|]. rewrite Nat.sub_diag.
    exists d0. repeat split; auto. intros i d' Hi. lia.
  - apply IH in H as (Hle & d & Hd & Heq & Hfirst).
    split; [lia|]. exists d.
    replace (j - a)%nat with (S (j - S a)) by lia.
    repeat split; auto.
    intros [|i] d' Hi Hd'; simpl in Hd'.
    + injection Hd' as <-. apply not_true_is_false. exact Hne.
    + apply (Hfirst i); [lia | exact Hd'].
Qed.

Lemma keys_at_Ok (minimum : float) (distances : list float) (j : nat) :
  py_index (Algorithm.keys_at minimum distances) 0 = Ok j ->
  exists d, distances !! j = Some d /\ feqb d minimum = true /\
    forall i d', (i < j)%nat -> distances !! i = Some d' ->
                 feqb d' minimum = false.
Proof.
  rewrite py_index_Ok. unfold Algorithm.keys_at. intros H.
  apply keys_head in H as (_ & H). rewrite Nat.sub_0_r in H. exact H.
Qed.

Lemma keys_at_total (minimum : float) (distances : list float) (d : float) :
  d ∈ distances -> feqb d minimum = true ->
  exists j, py_index (Algorithm.keys_at minimum distances) 0 = Ok j.
Proof.
  intros Hd Heq. unfold Algorithm.keys_at.
  apply list_elem_of_lookup in Hd as (k & Hk).
  assert (Hin : k ∈ map fst
            (filter (fun kd => feqb (snd kd) minimum = true)
                    (zip (seq 0 (length distances)) distances))).
  { apply list_elem_of_fmap. exists (k, d). split; [reflexivity|].
    apply list_elem_of_filter. split; [exact Heq|].
    apply list_elem_of_lookup. exists k.
    apply lookup_zip_with_Some. exists k, d. repeat split; auto.
    apply lookup_seq. split; [reflexivity|].
    eapply lookup_lt_Some; eassumption. }
  destruct (map fst _) as [|j0 l]; [inversion Hin|].
  exists j0. reflexivity.
Qed.

Lemma forM_total {A B : Type} (f : A -> result B) (xs : list A) :
  (forall x, x ∈ xs -> exists y, f x = Ok y) ->
  exists ys, forM f xs = Ok ys.
Proof.
  induction xs as [|x xs IH]; simpl; intros H; [eauto|].
  destruct (H x) as (y & Hy); [constructor|]. rewrite Hy. simpl.
  destruct IH as (ys & Hys).
  { intros x' Hx'. apply H. by constructor. }
  rewrite Hys. simpl. eauto.
Qed.

(** C3. When [_nearest] returns the cluster at position [j], no cluster
    of the engine is nearer to the point (the distance of [j] is less
    than or equal to every distance that is a number), and no cluster
    before [j] in the list is at the same distance: [j] is the first
    position where the minimum is reached.  [_nearest] does return a
    cluster when the engine has one and every distance is a number. *)
Theorem nearest_first_minimum (self : Algorithm.t) (point : pyval) :
  let dset := Algorithm._dataset self in
  let clusters := Algorithm.getClusters self in
  (forall j,
     Algorithm._nearest self point = Ok j ->
     exists c dj,
       clusters !! j = Some c /\ Cluster.distance dset c point = Ok dj /\
       forall i c',
         clusters !! i = Some c' ->
         exists di,
           Cluster.distance dset c' point = Ok di /\
           fltb di dj = false /\
           (is_nan di = false -> fleb dj di = true) /\
           ((i < j)%nat -> feqb di dj = false)) /\
  (clusters <> [] ->
   (forall c, c ∈ clusters ->
      exists d, Cluster.distance dset c point = Ok d /\ is_nan d = false) ->
   exists j, Algorithm._nearest self point = Ok j).
Proof.
  intros dset clusters. split.
  - intros j H. unfold Algorithm._nearest in H.
    apply bind_Ok in H as ([] & _ & H).
    apply bind_Ok in H as (n & _ & H).
    apply bind_Ok in H as ([] & _ & H).
    apply bind_Ok in H as (distances & Hds & H).
    apply bind_Ok in H as (minimum & Hmin & H).
    apply py_min_Ok in Hmin as (_ & Hmin).
    apply keys_at_Ok in H as (dj & Hj & Heq & Hfirst).
    assert (Hlen := forM_length _ _ _ Hds).
    destruct (clusters !! j) as [c|] eqn:Hc.
    2:{ apply lookup_ge_None in Hc. apply lookup_lt_Some in Hj.
        unfold clusters, Algorithm.getClusters in Hc. lia. }
    destruct (forM_lookup _ _ _ Hds j c Hc) as (dj' & Hj' & Hdist).
    assert (dj' = dj) as -> by congruence.
    exists c, dj. repeat split; auto.
    intros i c' Hc'.
    destruct (forM_lookup _ _ _ Hds i c' Hc') as (di & Hi & Hdi).
    assert (Hlt : fltb di dj = false).
    { apply not_true_is_false. intros Hlt.
      pose proof (fltb_feqb _ _ _ Hlt Heq) as Hm.
      rewrite Hmin in Hm; [discriminate|].
      eapply list_elem_of_lookup_2; eassumption. }
    exists di. repeat split; auto.
    + intros Hnan. apply fleb_of_not_fltb; auto.
      eapply feqb_not_nan; eassumption.
    + intros Hij. apply not_true_is_false. intros Hdd.
      pose proof (Hfirst i di Hij Hi) as Hne.
      pose proof (feqb_trans _ _ _ Hdd Heq) as Hm.
      congruence.
  - intros Hne Hall. unfold Algorithm._nearest.
    destruct (forM_total
                (fun cluster => Cluster.distance dset cluster point) clusters)
      as (distances & Hds).
    { intros c Hc. destruct (Hall c Hc) as (d & Hd & _). eauto. }
    destruct clusters as [|c0 cs] eqn:Hcs; [congruence|].
    destruct (Hall c0) as (d0 & Hd0 & Hnan0); [constructor|].
    pose proof Hd0 as Hpre. unfold Cluster.distance in Hpre.
    apply bind_Ok in Hpre as ([] & Hpoint & Hpre).
    apply bind_Ok in Hpre as (n & Hn & Hpre).
    apply bind_Ok in Hpre as ([] & Hdim & _).
    fold dset. rewrite Hpoint. simpl. rewrite Hn. simpl. rewrite Hdim. simpl.
    unfold clusters, Algorithm.getClusters in Hcs. rewrite Hcs, Hds. simpl.
    assert (Hlen := forM_length _ _ _ Hds).
    destruct (py_min_total distances) as (m & Hm).
    { intros ->. discriminate. }
    rewrite Hm. simpl.
    pose proof (py_min_Ok _ _ Hm) as (Hin & _).
    apply (keys_at_total m distances m Hin).
    apply feqb_refl.
    apply list_elem_of_lookup in Hin as (k & Hk).
    destruct ((c0 :: cs) !! k) as [c|] eqn:Hc.
    2:{ apply lookup_ge_None in Hc. apply lookup_lt_Some in Hk. lia. }
    destruct (forM_lookup _ _ _ Hds k c Hc) as (d & Hd & Hdist).
    destruct (Hall c) as (d' & Hd' & Hnan).
    { eapply list_elem_of_lookup_2; eassumption. }
    congruence.
Qed.

Lemma nearest_first_minimum_witness :
  Algorithm._nearest Examples.line_engine (Examples.fpoint [5]) = Ok 0%nat /\
  exists c dj,
    Algorithm.getClusters Examples.line_engine !! 0%nat = Some c /\
    Cluster.distance Examples.line c (Examples.fpoint [5]) = Ok dj.
Proof.
  assert (H : Algorithm._nearest Examples.line_engine (Examples.fpoint [5])
              = Ok 0%nat)
    by (vm_compute; reflexivity).
  split; [exact H|].
  destruct (proj1 (nearest_first_minimum Examples.line_engine
                     (Examples.fpoint [5])) 0%nat H)
    as (c & dj & Hc & Hd & _).
  exists c, dj. split; assumption.
Defined.

(** The point [(5.0,)] is at the distance [5.0] of both centroids of
    [line_engine]; [_nearest] returns the first cluster. *)
Example nearest_tie :
  forM (fun c => Cluster.distance Examples.line c (Examples.fpoint [5]))
       (Algorithm.getClusters Examples.line_engine)
    = Ok [round_int 5; round_int 5] /\
  Algorithm._nearest Examples.line_engine (Examples.fpoint [5]) = Ok 0%nat.
Proof. split; vm_compute; reflexivity. Qed.

(** ** The new centroid *)

Lemma scatter_Ok (items : list pyval) :
  forall columns : list (list pyval),
    length columns = length items ->
    Cluster.scatter columns items
      = Ok (zip_with (fun column x => column ++ [x]) columns items).
Proof.
  induction items as [|x items IH]; intros [|column columns] Hlen;
    simpl in *; try discriminate; [reflexivity|].
  rewrite IH by lia. reflexivity.
Qed.

Lemma coordinate_Ok (i : nat) (point : pyval) (items : list pyval)
    (x : pyval) :
  py_items point = Ok items -> items !! i = Some x ->
  Spec.coordinate i point = Ok x.
Proof.
  intros Hitems Hx. unfold Spec.coordinate, py_index.
  rewrite Hitems. simpl. rewrite Hx. reflexivity.
Qed.

Lemma columns_fold (D : nat) (members : list pyval) :
  Forall (has_dimension D) members ->
  forall columns0 : list (list pyval),
    length columns0 = D ->
    exists columns,
      foldM (fun recomputation point =>
               coords ← py_items point;
               Cluster.scatter recomputation coords)
            columns0 members = Ok columns /\
      length columns = D /\
      forall i c0,
        columns0 !! i = Some c0 ->
        exists column,
          forM (Spec.coordinate i) members = Ok column /\
          columns !! i = Some (c0 ++ column).
Proof.
  induction 1 as [|point members (items & Hitems & Hdim) _ IH];
    intros columns0 Hlen.
  - exists columns0. repeat split; auto.
    intros i c0 Hi. exists []. rewrite app_nil_r. auto.
  - cbn [foldM]. rewrite Hitems. cbn [mbind result_bind].
    rewrite scatter_Ok by lia.
    destruct (IH (zip_with (fun column x => column ++ [x]) columns0 items))
      as (columns & Hfold & Hlen' & Hcols).
    { rewrite length_zip_with. lia. }
    exists columns. repeat split; auto.
    intros i c0 Hi.
    destruct (items !! i) as [x|] eqn:Hx.
    2:{ apply lookup_ge_None in Hx. apply lookup_lt_Some in Hi. lia. }
    destruct (Hcols i (c0 ++ [x])) as (column & Hcolumn & Hlookup).
    { rewrite lookup_zip_with, Hi. simpl. rewrite Hx. reflexivity. }
    exists (x :: column). split.
    + cbn [forM]. rewrite (coordinate_Ok _ _ _ _ Hitems Hx).
      cbn [mbind result_bind]. rewrite Hcolumn. reflexivity.
    + rewrite Hlookup, <- app_assoc. reflexivity.
Qed.

Lemma mean_arithmetic (column : list pyval) :
  Cluster.mean column = (m ← Spec.arithmetic_mean column; Ok (PyFloat m)).
Proof.
  unfold Cluster.mean, Spec.arithmetic_mean.
  destruct (Cluster.py_sum column) as [total|e]; reflexivity.
Qed.

Lemma mean_coordinate_column (members column : list pyval) (i : nat) :
  forM (Spec.coordinate i) members = Ok column ->
  Spec.mean_coordinate members i = Spec.arithmetic_mean column.
Proof. intros H. unfold Spec.mean_coordinate. rewrite H. reflexivity. Qed.

Lemma forM_mean (members : list pyval) (columns : list (list pyval)) :
  forall a : nat,
    (forall i column,
       columns !! i = Some column ->
       forM (Spec.coordinate (a + i)) members = Ok column) ->
    forM Cluster.mean columns
      = (new ← forM (Spec.mean_coordinate members) (seq a (length columns));
         Ok (map PyFloat new)).
Proof.
  induction columns as [|column columns IH]; intros a H; [reflexivity|].
  cbn [forM length seq].
  pose proof (H 0%nat column eq_refl) as H0. rewrite Nat.add_0_r in H0.
  rewrite mean_arithmetic, (mean_coordinate_column _ _ _ H0), (IH (S a)).
  2:{ intros i c Hi. replace (S a + i)%nat with (a + S i)%nat by lia.
      apply H. exact Hi. }
  destruct (Spec.arithmetic_mean column) as [m|e]; [|reflexivity].
  cbn [mbind result_bind].
  destruct (forM _ (seq (S a) _)); reflexivity.
Qed.

Lemma np_array_floats (new : list float) :
  np_array (PyList (map PyFloat new)) = Ok new.
Proof.
  unfold np_array. simpl. induction new as [|x new IH]; simpl;
    [reflexivity|]. rewrite IH. reflexivity.
Qed.

Lemma np_allclose_same_length (old : pyval) (new : list float) (D : nat) :
  py_len old = Ok (Z.of_nat D) ->
  length new = D ->
  np_allclose old (PyList (map PyFloat new))
    = (xs ← np_array old;
       Ok (forallb (fun on => Spec.within_tolerance (fst on) (snd on))
                   (zip xs new))).
Proof.
  intros Hold Hnew. unfold np_allclose. rewrite np_array_floats.
  destruct (np_array old) as [xs|e] eqn:Hxs; simpl; [|reflexivity].
  assert (Hlen : length xs = length new).
  { unfold np_array in Hxs. apply bind_Ok in Hxs as (items & Hitems & Hxs).
    apply forM_length in Hxs. rewrite Hxs.
    destruct old; simpl in *; try discriminate;
      injection Hitems as <-; injection Hold as Hold; lia. }
  unfold np_broadcast. rewrite Hlen, Nat.eqb_refl. simpl. f_equal.
  generalize (zip xs new). intros ps.
  induction ps as [|[a b] ps IH]; simpl; [reflexivity|].
  rewrite IH. reflexivity.
Qed.

(** The source and the specification agree on [update]. *)
Lemma update_refines (dset : Dataset.t) (self : Cluster.t) (D : nat)
    (members : list pyval) :
  Cluster.getContents dset self = Ok members ->
  Forall (has_dimension D) members ->
  py_len (Cluster.getCentroid self) = Ok (Z.of_nat D) ->
  Cluster.update dset self = Spec.recomputeCentroid dset self D.
Proof.
  intros Hmembers Hdim Hold. unfold Cluster.getCentroid in Hold.
  unfold Cluster.update, Spec.recomputeCentroid. rewrite Hmembers. cbn [mbind result_bind].
  destruct members as [|first rest]; [reflexivity|].
  pose proof (Forall_inv Hdim) as (items & Hitems & Hlen).
  assert (Hwidth : py_len first = Ok (Z.of_nat D)).
  { destruct first; simpl in *; try discriminate;
      injection Hitems as <-; rewrite Hlen; reflexivity. }
  rewrite Hwidth. cbn [mbind result_bind]. rewrite Nat2Z.id.
  destruct (columns_fold D (first :: rest) Hdim (replicate D []))
    as (columns & Hfold & Hcols & Hcolumn).
  { apply length_replicate. }
  rewrite Hfold. cbn [mbind result_bind].
  rewrite (forM_mean (first :: rest) columns 0%nat), Hcols.
  2:{ intros i column Hi. rewrite Nat.add_0_l.
      destruct (Hcolumn i []) as (column' & Hforall & Hi').
      { apply lookup_replicate_2. apply lookup_lt_Some in Hi. lia. }
      rewrite app_nil_l in Hi'. congruence. }
  destruct (forM (Spec.mean_coordinate (first :: rest)) (seq 0 D))
    as [new|e] eqn:Hnew; cbn [mbind result_bind]; [|reflexivity].
  rewrite (np_allclose_same_length _ new D Hold).
  2:{ apply forM_length in Hnew. rewrite Hnew. apply length_seq. }
  destruct (np_array (Cluster._centroid self)); reflexivity.
Qed.

(** C2. On a cluster with members, whose points and centroid have [D]
    coordinates, [update] is the [recomputeCentroid] of the
    specification.  What it stores is the sequence whose [i]-th
    coordinate is the arithmetic mean of the [i]-th coordinates of the
    members, and it returns True exactly when every coordinate of the
    old centroid and the corresponding coordinate of the new one are
    within the tolerance. *)
Theorem update_mean_allclose (dset : Dataset.t) (self : Cluster.t) (D : nat)
    (members : list pyval) :
  Cluster.getContents dset self = Ok members ->
  members <> [] ->
  Forall (has_dimension D) members ->
  py_len (Cluster.getCentroid self) = Ok (Z.of_nat D) ->
  Cluster.update dset self = Spec.recomputeCentroid dset self D /\
  forall b self',
    Cluster.update dset self = Ok (b, self') ->
    exists old new,
      np_array (Cluster.getCentroid self) = Ok old /\
      length old = D /\ length new = D /\
      Cluster.getCentroid self' = PyList (map PyFloat new) /\
      Cluster.getIndices self' = Cluster.getIndices self /\
      (forall i, (i < D)%nat ->
         exists m, new !! i = Some m /\
                   Spec.mean_coordinate members i = Ok m) /\
      (b = true <->
       forall i o n, old !! i = Some o -> new !! i = Some n ->
                     Spec.within_tolerance o n = true).
Proof.
  intros Hmembers Hne Hdim Hold.
  pose proof (update_refines dset self D members Hmembers Hdim Hold) as Heq.
  split; [exact Heq|].
  intros b self' Hupdate. rewrite Heq in Hupdate.
  unfold Spec.recomputeCentroid in Hupdate. rewrite Hmembers in Hupdate.
  simpl in Hupdate. destruct members as [|first rest]; [congruence|].
  apply bind_Ok in Hupdate as (new & Hnew & Hupdate).
  apply bind_Ok in Hupdate as (old & Harray & Hupdate).
  injection Hupdate as <- <-.
  assert (Hlnew : length new = D).
  { apply forM_length in Hnew. rewrite Hnew. apply length_seq. }
  assert (Hlold : length old = D).
  { unfold np_array in Harray.
    apply bind_Ok in Harray as (items & Hitems & Harray).
    apply forM_length in Harray. rewrite Harray.
    unfold Cluster.getCentroid in Hold.
    destruct (Cluster._centroid self); simpl in *; try discriminate;
      injection Hitems as <-; injection Hold as Hold; lia. }
  exists old, new. repeat split; auto.
  - intros i Hi.
    destruct (forM_lookup _ _ _ Hnew i i) as (m & Hm & Hmean); [|eauto].
    apply lookup_seq. split; [reflexivity | exact Hi].
  - intros Hall i o n Ho Hn. rewrite forallb_forall in Hall.
    apply (Hall (o, n)). apply list_elem_of_In.
    apply list_elem_of_lookup. exists i.
    apply lookup_zip_with_Some. eauto.
  - intros Hall. apply forallb_forall. intros [o n] Hin.
    apply list_elem_of_In, list_elem_of_lookup in Hin as (i & Hi).
    apply lookup_zip_with_Some in Hi as (o' & n' & Heq' & Ho & Hn).
    injection Heq' as -> ->. simpl. eauto.
Qed.

Lemma update_mean_allclose_witness :
  Cluster.getContents Examples.line Examples.pair_cluster
    = Ok [Examples.fpoint [0]; Examples.fpoint [1]] /\
  Cluster.update Examples.line Examples.pair_cluster
    = Spec.recomputeCentroid Examples.line Examples.pair_cluster 1.
Proof.
  assert (H : Cluster.getContents Examples.line Examples.pair_cluster
              = Ok [Examples.fpoint [0]; Examples.fpoint [1]])
    by reflexivity.
  split; [exact H|].
  refine (proj1 (update_mean_allclose Examples.line Examples.pair_cluster
                   1%nat _ H _ _ _)).
  - discriminate.
  - repeat constructor; eexists; split; reflexivity.
  - reflexivity.
Defined.

(** ** The number of clusters *)

Lemma init_clusters (dset : Dataset.t) (k seeds : pyval) (sample : list Z)
    (self : Algorithm.t) :
  Algorithm.__init__ dset k seeds sample = Ok self ->
  Algorithm._dataset self = dset /\
  exists kz,
    k = PyInt kz /\ 0 < kz <= Dataset.getSize dset /\
    ((seeds = PyNone /\
      length (Algorithm.getClusters self) = length sample) \/
     (exists items,
        seeds = PyList items /\
        length (Algorithm.getClusters self) = length items)).
Proof.
  unfold Algorithm.__init__. destruct k as [|[kz|]| | |]; try discriminate.
  intros H.
  apply bind_Ok in H as ([] & Hk%py_assert_Ok & H).
  apply bind_Ok in H as (valid & Hvalid & H).
  apply bind_Ok in H as ([] & ->%py_assert_Ok & H).
  apply bind_Ok in H as (chosen & Hchosen & H).
  apply bind_Ok in H as (clusters & Hclusters & H).
  injection H as <-. simpl. split; [reflexivity|].
  apply forM_length in Hclusters.
  exists kz. split; [reflexivity|]. split; [lia|].
  destruct seeds as [| | | |items]; simpl in *.
  - left. injection Hchosen as <-. rewrite length_map in Hclusters. auto.
  - apply bind_Ok in Hvalid as (_ & _ & Hvalid). discriminate.
  - apply bind_Ok in Hvalid as (_ & _ & Hvalid). discriminate.
  - apply bind_Ok in Hvalid as (_ & _ & Hvalid). discriminate.
  - right. injection Hchosen as <-. eauto.
Qed.

(** Without seeds the engine has [k] clusters. *)
Lemma init_sample_length (dset : Dataset.t) (k : Z) (sample : list Z)
    (self : Algorithm.t) :
  Algorithm.is_sample (Dataset.getSize dset) k sample ->
  Algorithm.__init__ dset (PyInt k) PyNone sample = Ok self ->
  Z.of_nat (length (Algorithm.getClusters self)) = k.
Proof.
  intros (Hlen & _ & _) H.
  apply init_clusters in H as (_ & kz & _ & _ & [(_ & Hl)|(items & Hs & _)]);
    [|discriminate].
  rewrite Hl. exact Hlen.
Qed.

(** [run] changes neither the dataset nor the number of clusters. *)
Lemma run_loop_frame (n : nat) :
  forall self trace0 self' trace,
    Algorithm.run_loop n self trace0 = Ok (self', trace) ->
    Algorithm._dataset self' = Algorithm._dataset self /\
    length (Algorithm._cluster self') = length (Algorithm._cluster self).
Proof.
  induction n as [|n IH]; simpl; intros self trace0 self' trace H.
  - injection H as <- <-. auto.
  - apply bind_Ok in H as ([converge self1] & Hstep & H).
    apply step_frame in Hstep as (Hd & Hl). destruct converge.
    + injection H as <- <-. auto.
    + apply IH in H as (Hd' & Hl'). rewrite Hd', Hl'. auto.
Qed.

(** C5, at the failing input [Algorithm(two, 2, [0])]: the engine is
    constructed with [k = 2] and has one cluster, whatever the random
    source would have drawn.  The seeds are used as they come and their
    number is never compared with [k]. *)
Theorem init_seeds_shorter_than_k :
  forall sample : list Z,
  exists self,
    Algorithm.__init__ Examples.two (PyInt 2) (PyList [PyInt 0]) sample
      = Ok self /\
    length (Algorithm.getClusters self) = 1%nat.
Proof.
  intros sample. eexists. split; [vm_compute; reflexivity|]. reflexivity.
Qed.

(** * Further properties *)

(** ** The dataset, continued *)

Lemma is_point_list_loop (dim : Z) (items : list pyval) :
  forall okay : bool,
    foldM (fun okay x =>
             if negb (Dataset.is_point x) then Ok false
             else
               n ← py_len x;
               if negb (n =? dim) then Ok false else Ok okay)
          okay items = Ok true ->
    okay = true /\
    Forall (fun x => Dataset.is_point x = true /\ py_len x = Ok dim) items.
Proof.
  induction items as [|x items IH]; intros okay H.
  - injection H as ->. auto.
  - cbn [foldM] in H. apply bind_Ok in H as (okay' & Hx & H).
    apply IH in H as (-> & Hall).
    destruct (Dataset.is_point x) eqn:Hpoint; simpl in Hx; [|discriminate].
    apply bind_Ok in Hx as (n & Hn & Hx).
    destruct (n =? dim) eqn:Hdim; simpl in Hx; [|discriminate].
    injection Hx as ->. apply Z.eqb_eq in Hdim as ->.
    split; [reflexivity|]. constructor; auto.
Qed.

(** A dataset constructed from a list holds that list, which is not
    empty and whose items are all points of one length, that of the
    first one; the declared dimension is a positive int. *)
Theorem init_list_common_length (dim : pyval) (items : list pyval)
    (dset : Dataset.t) :
  Dataset.__init__ dim (PyList items) = Ok dset ->
  Dataset.getContents dset = items /\
  dim = PyInt (Dataset.getDimension dset) /\
  0 < Dataset.getDimension dset /\
  exists first n,
    items !! 0%nat = Some first /\ py_len first = Ok n /\
    Forall (fun x => Dataset.is_point x = true /\ py_len x = Ok n) items.
Proof.
  unfold Dataset.__init__. destruct dim as [|[d|]| | |]; try discriminate.
  intros H.
  apply bind_Ok in H as ([] & Hd%py_assert_Ok%Z.ltb_lt & H).
  apply bind_Ok in H as (ok & Hok & H).
  apply bind_Ok in H as ([] & Hassert%py_assert_Ok & H).
  injection H as <-. simpl.
  rewrite orb_false_r in Hassert. subst ok.
  unfold Dataset.is_point_list in Hok.
  apply bind_Ok in Hok as (first & Hfirst%py_index_Ok & Hok).
  apply bind_Ok in Hok as (n & Hn & Hok).
  apply is_point_list_loop in Hok as (_ & Hall).
  repeat split; auto. exists first, n. auto.
Qed.

Lemma init_list_common_length_witness :
  Dataset.__init__ (PyInt 1)
    (PyList [Examples.ipoint [0]; Examples.ipoint [5]]) = Ok Examples.two /\
  Dataset.getContents Examples.two
    = [Examples.ipoint [0]; Examples.ipoint [5]].
Proof.
  assert (H : Dataset.__init__ (PyInt 1)
                (PyList [Examples.ipoint [0]; Examples.ipoint [5]])
              = Ok Examples.two) by reflexivity.
  split; [exact H|].
  exact (proj1 (init_list_common_length _ _ _ H)).
Defined.

Lemma getPoint_cases (dset : Dataset.t) (z : Z) :
  (0 <= z < Dataset.getSize dset ->
   exists point,
     Dataset.getContents dset !! Z.to_nat z = Some point /\
     Dataset.getPoint dset (PyInt z) = Ok point) /\
  (~ 0 <= z < Dataset.getSize dset ->
   Dataset.getPoint dset (PyInt z) = Raise AssertionError).
Proof.
  unfold Dataset.getPoint, PyInt, Dataset.getSize. split; intros Hz.
  - replace ((0 <=? z) && (z <=? _ - 1)) with true
      by (symmetry; apply andb_true_iff; split;
          [apply Z.leb_le | apply Z.leb_le]; lia).
    simpl. destruct (Dataset.getContents dset !! Z.to_nat z) as [p|] eqn:Hp.
    + exists p. split; [reflexivity|]. apply py_index_Ok. exact Hp.
    + apply lookup_ge_None in Hp. lia.
  - replace ((0 <=? z) && (z <=? _ - 1)) with false; [reflexivity|].
    symmetry. apply andb_false_iff.
    destruct (Z.leb_spec 0 z); [right|left; reflexivity].
    apply Z.leb_gt. lia.
Qed.

(** [getPoint] returns the point at a valid int index, and raises
    AssertionError, never IndexError, at any other int. *)
Theorem getPoint_bounds (dset : Dataset.t) (z : Z) :
  (0 <= z < Dataset.getSize dset ->
   exists point,
     Dataset.getContents dset !! Z.to_nat z = Some point /\
     Dataset.getPoint dset (PyInt z) = Ok point) /\
  (~ 0 <= z < Dataset.getSize dset ->
   Dataset.getPoint dset (PyInt z) = Raise AssertionError).
Proof. exact (getPoint_cases dset z). Qed.

Lemma getPoint_bounds_witness :
  0 <= 1 < Dataset.getSize Examples.two /\
  exists point,
    Dataset.getContents Examples.two !! Z.to_nat 1 = Some point /\
    Dataset.getPoint Examples.two (PyInt 1) = Ok point.
Proof.
  assert (H : 0 <= 1 < Dataset.getSize Examples.two)
    by (unfold Dataset.getSize; simpl; lia).
  split; [exact H|].
  exact (proj1 (getPoint_bounds Examples.two 1) H).
Defined.

(** [addPoint] appends: the size grows by one, the new point is the
    last one, the points before it and the dimension are as they
    were. *)
Theorem addPoint_appends (dset dset' : Dataset.t) (point : pyval) :
  Dataset.addPoint dset point = Ok dset' ->
  Dataset.getSize dset' = Dataset.getSize dset + 1 /\
  Dataset.getDimension dset' = Dataset.getDimension dset /\
  Dataset.getPoint dset' (PyInt (Dataset.getSize dset)) = Ok point /\
  forall z, 0 <= z < Dataset.getSize dset ->
            Dataset.getPoint dset' (PyInt z) = Dataset.getPoint dset (PyInt z).
Proof.
  intros H. unfold Dataset.addPoint in H.
  apply bind_Ok in H as ([] & _ & H).
  apply bind_Ok in H as (n & _ & H).
  apply bind_Ok in H as ([] & _ & H).
  injection H as <-.
  set (dset' := {| Dataset._dimension := Dataset._dimension dset;
                   Dataset._contents := Dataset._contents dset ++ [point] |}).
  assert (Hsize : Dataset.getSize dset' = Dataset.getSize dset + 1).
  { unfold Dataset.getSize, Dataset.getContents. simpl.
    rewrite length_app. simpl. lia. }
  assert (Hnonneg : 0 <= Dataset.getSize dset)
    by (unfold Dataset.getSize; lia).
  split; [exact Hsize|]. split; [reflexivity|]. split.
  - destruct (proj1 (getPoint_cases dset' (Dataset.getSize dset)))
      as (p & Hp & ->); [lia|].
    f_equal. unfold Dataset.getContents, Dataset.getSize in Hp. simpl in Hp.
    rewrite Nat2Z.id in Hp. unfold Dataset.getContents in Hp.
    rewrite lookup_app_r, Nat.sub_diag in Hp by lia. simpl in Hp. congruence.
  - intros z Hz.
    destruct (proj1 (getPoint_cases dset' z)) as (p & Hp & ->); [lia|].
    destruct (proj1 (getPoint_cases dset z) Hz) as (p' & Hp' & ->).
    f_equal. unfold Dataset.getContents in *. simpl in Hp.
    unfold Dataset.getSize, Dataset.getContents in Hz.
    rewrite lookup_app_l in Hp by lia. congruence.
Qed.

Lemma addPoint_appends_witness :
  exists dset',
    Dataset.addPoint Examples.two (Examples.ipoint [7]) = Ok dset' /\
    Dataset.getSize dset' = Dataset.getSize Examples.two + 1.
Proof.
  destruct (Dataset.addPoint Examples.two (Examples.ipoint [7]))
    as [dset'|e] eqn:H; [|discriminate H].
  exists dset'. split; [reflexivity|].
  exact (proj1 (addPoint_appends _ _ _ H)).
Defined.

(** The documented invariant, every point being a tuple of numbers of
    the declared dimension, holds of a dataset constructed without
    contents and is kept by [addPoint]; [addPoint] accepts exactly the
    points of the declared dimension. *)
Theorem addPoint_keeps_dimension (dset : Dataset.t) (point : pyval) :
  (forall dim dset0, Dataset.__init__ dim PyNone = Ok dset0 ->
                     well_formed dset0) /\
  (forall dset',
     well_formed dset -> Dataset.addPoint dset point = Ok dset' ->
     well_formed dset') /\
  ((exists dset', Dataset.addPoint dset point = Ok dset') <->
   Dataset.is_point point = true /\
   py_len point = Ok (Dataset.getDimension dset)).
Proof.
  split; [exact init_None_well_formed|].
  split; [intros dset'; apply addPoint_well_formed|].
  unfold Dataset.addPoint. split.
  - intros (dset' & H).
    apply bind_Ok in H as ([] & Hpoint%py_assert_Ok & H).
    apply bind_Ok in H as (n & Hn & H).
    apply bind_Ok in H as ([] & Hdim%py_assert_Ok%Z.eqb_eq & H).
    subst n. auto.
  - intros (Hpoint & Hlen). rewrite Hpoint, Hlen. simpl.
    rewrite Z.eqb_refl. simpl. eauto.
Qed.

Lemma addPoint_keeps_dimension_witness :
  well_formed Examples.two /\
  exists dset',
    Dataset.addPoint Examples.two (Examples.ipoint [7]) = Ok dset' /\
    well_formed dset'.
Proof.
  assert (Hwf : well_formed Examples.two).
  { repeat constructor. }
  split; [exact Hwf|].
  destruct (Dataset.addPoint Examples.two (Examples.ipoint [7]))
    as [dset'|e] eqn:H; [|discriminate H].
  exists dset'. split; [reflexivity|].
  exact (proj1 (proj2 (addPoint_keeps_dimension Examples.two
                         (Examples.ipoint [7]))) dset' Hwf H).
Defined.

(** ** A cluster, continued *)

Lemma addIndex_Ok (dset : Dataset.t) (self self' : Cluster.t) (index : pyval) :
  Cluster.addIndex dset self index = Ok self' ->
  exists z,
    index = PyInt z /\ index_in_range dset z /\
    Cluster._centroid self' = Cluster._centroid self /\
    ((z ∈ Cluster._indices self /\ self' = self) \/
     ((z ∉ Cluster._indices self) /\
      Cluster._indices self' = Cluster._indices self ++ [z])).
Proof.
  unfold Cluster.addIndex. destruct index as [|[z|]| | |]; try discriminate.
  intros H. apply bind_Ok in H as ([] & Hz%py_assert_Ok & H).
  apply andb_true_iff in Hz as (Hz0%Z.leb_le & Hz1%Z.ltb_lt).
  exists z. split; [reflexivity|]. split; [split; assumption|].
  destruct (Cluster.contains z (Cluster._indices self)) eqn:Hin;
    simpl in H; injection H as <-; (split; [reflexivity|]).
  - left. split; [|reflexivity]. apply contains_elem_of. exact Hin.
  - right. split; [|reflexivity]. intros Hz%contains_elem_of. congruence.
Qed.

Lemma update_indices (dset : Dataset.t) (self self' : Cluster.t) (b : bool) :
  Cluster.update dset self = Ok (b, self') ->
  Cluster._indices self' = Cluster._indices self.
Proof.
  unfold Cluster.update. intros H.
  apply bind_Ok in H as ([|first rest] & _ & H).
  - injection H as _ <-. reflexivity.
  - apply bind_Ok in H as (width & _ & H).
    apply bind_Ok in H as (columns & _ & H).
    apply bind_Ok in H as (recomputation & _ & H).
    apply bind_Ok in H as (close & _ & H).
    injection H as _ <-. reflexivity.
Qed.

(** The invariant of a cluster (no index twice, every index valid for
    the dataset) holds of a new cluster and is kept by [clear],
    [addIndex] and [update]. *)
Theorem cluster_invariant_kept (dset : Dataset.t) (self : Cluster.t) :
  (forall centroid c,
     Cluster.__init__ dset centroid = Ok c -> valid_cluster dset c) /\
  (valid_cluster dset self ->
   valid_cluster dset (Cluster.clear self) /\
   (forall index c',
      Cluster.addIndex dset self index = Ok c' -> valid_cluster dset c') /\
   (forall b c',
      Cluster.update dset self = Ok (b, c') -> valid_cluster dset c')).
Proof.
  unfold valid_cluster, Cluster.getIndices. split.
  - intros centroid c H. unfold Cluster.__init__ in H.
    apply bind_Ok in H as ([] & _ & H).
    apply bind_Ok in H as (n & _ & H).
    apply bind_Ok in H as ([] & _ & H).
    injection H as <-. simpl. split; constructor.
  - intros (Hnd & Hrange). split; [simpl; split; constructor|]. split.
    + intros index c' H.
      apply addIndex_Ok in H as (z & _ & Hz & _ & [(_ & ->)|(Hfresh & ->)]);
        [auto|].
      split.
      * apply NoDup_app. repeat split; [exact Hnd | | apply NoDup_singleton].
        intros x Hx ->%list_elem_of_singleton. contradiction.
      * apply Forall_app. split; [exact Hrange|]. constructor; [exact Hz|].
        constructor.
    + intros b c' H. apply update_indices in H. rewrite H. auto.
Qed.

Lemma cluster_invariant_kept_witness :
  valid_cluster Examples.line Examples.pair_cluster /\
  valid_cluster Examples.line (Cluster.clear Examples.pair_cluster).
Proof.
  assert (H : valid_cluster Examples.line Examples.pair_cluster).
  { split.
    - repeat constructor; rewrite ?list_elem_of_In; simpl; intuition lia.
    - repeat constructor; unfold Dataset.getSize; simpl; lia. }
  split; [exact H|].
  exact (proj1 (proj2 (cluster_invariant_kept _ _) H)).
Defined.

(** [addIndex] is idempotent: after an index has been added, adding it
    again changes nothing.  The first call leaves the centroid alone and
    either finds the index or puts it after the indices already held. *)
Theorem addIndex_idempotent (dset : Dataset.t) (self self' : Cluster.t)
    (index : pyval) :
  Cluster.addIndex dset self index = Ok self' ->
  Cluster.addIndex dset self' index = Ok self' /\
  Cluster.getCentroid self' = Cluster.getCentroid self /\
  exists z,
    index = PyInt z /\ z ∈ Cluster.getIndices self' /\
    (Cluster.getIndices self' = Cluster.getIndices self \/
     Cluster.getIndices self' = Cluster.getIndices self ++ [z]).
Proof.
  unfold Cluster.getIndices, Cluster.getCentroid.
  intros H. pose proof H as H0.
  apply addIndex_Ok in H0 as (z & -> & (Hz0 & Hz1) & Hc & Hcases).
  assert (Hin : z ∈ Cluster._indices self').
  { destruct Hcases as [(Hin & ->)|(_ & ->)]; [exact Hin|].
    apply elem_of_app. right. constructor. }
  repeat split.
  - unfold Cluster.addIndex, PyInt.
    replace ((0 <=? z) && (z <? Dataset.getSize dset)) with true
      by (symmetry; apply andb_true_iff; split;
          [apply Z.leb_le | apply Z.ltb_lt]; assumption).
    apply contains_elem_of in Hin. rewrite Hin. reflexivity.
  - exact Hc.
  - exists z. repeat split; [exact Hin|].
    destruct Hcases as [(_ & ->)|(_ & ->)]; auto.
Qed.

Lemma addIndex_idempotent_witness :
  Cluster.addIndex Examples.line Examples.pair_cluster (PyInt 1)
    = Ok Examples.pair_cluster /\
  Cluster.addIndex Examples.line Examples.pair_cluster (PyInt 1)
    = Ok Examples.pair_cluster.
Proof.
  assert (H : Cluster.addIndex Examples.line Examples.pair_cluster (PyInt 1)
              = Ok Examples.pair_cluster) by reflexivity.
  split; [exact H|].
  exact (proj1 (addIndex_idempotent _ _ _ _ H)).
Defined.

(** [getContents] returns the points of the dataset at the indices of
    the cluster, in the order of the indices, when every index is valid,
    and raises AssertionError when some index is not. *)
Theorem getContents_points (dset : Dataset.t) (self : Cluster.t) :
  (Forall (index_in_range dset) (Cluster.getIndices self) ->
   exists points,
     Cluster.getContents dset self = Ok points /\
     length points = length (Cluster.getIndices self) /\
     forall k i,
       Cluster.getIndices self !! k = Some i ->
       points !! k = Dataset.getContents dset !! Z.to_nat i) /\
  (~ Forall (index_in_range dset) (Cluster.getIndices self) ->
   Cluster.getContents dset self = Raise AssertionError).
Proof.
  unfold Cluster.getContents. generalize (Cluster.getIndices self).
  intros indices. induction indices as [|i indices [IHok IHbad]].
  - split.
    + intros _. exists []. repeat split. intros k i Hk. destruct k; discriminate.
    + intros H. exfalso. apply H. constructor.
  - destruct (decide (0 <= i < Dataset.getSize dset)) as [Hi|Hi].
    + destruct (proj1 (getPoint_cases dset i) Hi) as (p & Hp & Hget).
      cbn [forM]. rewrite Hget. cbn [mbind result_bind]. split.
      * intros Hall. apply Forall_cons in Hall as (_ & Hall).
        destruct (IHok Hall) as (points & -> & Hlen & Hpoints).
        exists (p :: points). repeat split; [simpl; lia|].
        intros [|k] j Hk; simpl in *; [|auto]. injection Hk as <-. auto.
      * intros Hbad. rewrite IHbad; [reflexivity|].
        intros Hall. apply Hbad. constructor; assumption.
    + split.
      * intros Hall. apply Forall_cons in Hall as (Hi' & _). contradiction.
      * intros _. cbn [forM].
        rewrite (proj2 (getPoint_cases dset i) Hi). reflexivity.
Qed.

Lemma getContents_points_witness :
  Forall (index_in_range Examples.line)
         (Cluster.getIndices Examples.pair_cluster) /\
  exists points,
    Cluster.getContents Examples.line Examples.pair_cluster = Ok points /\
    length points = 2%nat.
Proof.
  assert (H : Forall (index_in_range Examples.line)
                     (Cluster.getIndices Examples.pair_cluster)).
  { repeat constructor; unfold Dataset.getSize; simpl; lia. }
  split; [exact H|].
  destruct (proj1 (getContents_points Examples.line Examples.pair_cluster) H)
    as (points & Hpoints & Hlen & _).
  exists points. split; assumption.
Defined.

(** ** Distances *)





Lemma append_each_self (coords : list pyval) :
  Cluster.append_each (map (fun x => [x]) coords) coords
    = Ok (map (fun x => [x; x]) coords).
Proof.
  induction coords as [|x coords IH]; simpl; [reflexivity|].
  rewrite IH. reflexivity.
Qed.

Lemma fsub_diag (f : float) : is_finite f = true -> fsub f f = S754_zero false.
Proof.
  destruct f as [[]|[]| |s m e]; try discriminate; try reflexivity.
  intros _. unfold fsub, SFsub. rewrite Z.sub_diag. reflexivity.
Qed.

Lemma add_square_self (acc : num) (x : pyval) :
  acc = NInt 0 \/ acc = NFloat (S754_zero false) ->
  finite_number x = true ->
  exists acc',
    Cluster.add_square acc [x; x] = Ok acc' /\
    (acc' = NInt 0 \/ acc' = NFloat (S754_zero false)).
Proof.
  intros Hacc Hx. destruct x as [|[z|f]| | |]; try discriminate;
    unfold Cluster.add_square; simpl.
  - rewrite Z.sub_diag. destruct Hacc as [-> | ->]; simpl; eauto.
  - simpl in Hx. rewrite (fsub_diag f Hx).
    destruct Hacc as [-> | ->]; simpl; eauto.
Qed.

Lemma sum_squares_self (coords : list pyval) :
  forallb finite_number coords = true ->
  forall acc,
    acc = NInt 0 \/ acc = NFloat (S754_zero false) ->
    exists acc',
      foldM Cluster.add_square acc (map (fun x => [x; x]) coords) = Ok acc' /\
      (acc' = NInt 0 \/ acc' = NFloat (S754_zero false)).
Proof.
  induction coords as [|x coords IH]; intros Hall acc Hacc.
  - exists acc. auto.
  - cbn [forallb] in Hall. apply andb_true_iff in Hall as (Hx & Hall).
    cbn [map foldM].
    destruct (add_square_self acc x Hacc Hx) as (acc1 & -> & Hacc1).
    cbn [mbind result_bind]. apply IH; assumption.
Qed.

Lemma finite_numbers (coords : list pyval) :
  forallb finite_number coords = true -> forallb is_number coords = true.
Proof.
  induction coords as [|x coords IH]; [reflexivity|]. cbn [forallb].
  intros (Hx & Hall)%andb_true_iff. rewrite (IH Hall), andb_true_r.
  destruct x as [|[]| | |]; try discriminate; reflexivity.
Qed.

(** A cluster is at distance [0.0] of its own centroid, when the
    coordinates of the centroid are ints or finite floats: a seed point
    is at distance zero of the cluster it seeds. *)
Theorem distance_to_centroid_zero (dset : Dataset.t) (self : Cluster.t)
    (coords : list pyval) :
  py_items (Cluster.getCentroid self) = Ok coords ->
  forallb finite_number coords = true ->
  Z.of_nat (length coords) = Dataset.getDimension dset ->
  Cluster.distance dset self (PyTuple coords) = Ok (S754_zero false).
Proof.
  intros Hcentroid Hfinite Hdim. unfold Cluster.distance.
  cbn [Dataset.is_point py_len py_items].
  rewrite (finite_numbers coords Hfinite). cbn [py_assert mbind result_bind].
  rewrite Hdim, Z.eqb_refl. cbn [py_assert mbind result_bind].
  rewrite Hcentroid. cbn [mbind result_bind].
  rewrite append_each_self. cbn [mbind result_bind].
  destruct (sum_squares_self coords Hfinite (NInt 0)) as (sum & -> & Hsum);
    [auto|].
  destruct Hsum as [-> | ->]; reflexivity.
Qed.

Lemma distance_to_centroid_zero_witness :
  py_items (Cluster.getCentroid Examples.pair_cluster)
    = Ok [PyFloat (round_int 0)] /\
  Cluster.distance Examples.line Examples.pair_cluster
    (PyTuple [PyFloat (round_int 0)]) = Ok (S754_zero false).
Proof.
  assert (H : py_items (Cluster.getCentroid Examples.pair_cluster)
              = Ok [PyFloat (round_int 0)]) by reflexivity.
  split; [exact H|].
  exact (distance_to_centroid_zero Examples.line Examples.pair_cluster
           [PyFloat (round_int 0)] H eq_refl eq_refl).
Defined.

Lemma max_loop (rest : list float) :
  forall (current : float) (seen : list float),
    current ∈ seen ->
    (forall x, x ∈ seen -> fltb current x = false) ->
    let m := fold_left (fun current item =>
                          if fltb current item then item else current)
                       rest current in
    m ∈ seen ++ rest /\ forall x, x ∈ seen ++ rest -> fltb m x = false.
Proof.
  induction rest as [|item rest IH]; simpl; intros current seen Hin Hmax.
  - rewrite app_nil_r. auto.
  - replace (seen ++ item :: rest) with ((seen ++ [item]) ++ rest)
      by (rewrite <- app_assoc; reflexivity).
    destruct (fltb current item) eqn:Hlt; apply IH.
    + apply elem_of_app. right. constructor.
    + intros x [Hx|Hx%list_elem_of_singleton]%elem_of_app.
      * apply not_true_is_false. intros Hix.
        pose proof (fltb_trans _ _ _ Hlt Hix) as Hcx.
        rewrite (Hmax x Hx) in Hcx. discriminate.
      * subst x. apply fltb_irrefl.
    + apply elem_of_app. auto.
    + intros x [Hx|Hx%list_elem_of_singleton]%elem_of_app; [auto|].
      subst x. exact Hlt.
Qed.

(** [getRadius] raises ValueError on a cluster without members.  When it
    returns, the radius is the distance of one of the members to the
    centroid, and no member is farther. *)
Theorem getRadius_maximum (dset : Dataset.t) (self : Cluster.t) :
  (Cluster.getIndices self = [] ->
   Cluster.getRadius dset self = Raise ValueError) /\
  (forall r,
     Cluster.getRadius dset self = Ok r ->
     exists points distances,
       Cluster.getContents dset self = Ok points /\
       forM (Cluster.distance dset self) points = Ok distances /\
       r ∈ distances /\
       forall d, d ∈ distances -> fltb r d = false).
Proof.
  unfold Cluster.getRadius. split.
  - unfold Cluster.getContents. intros ->. reflexivity.
  - intros r H.
    apply bind_Ok in H as (points & Hpoints & H).
    apply bind_Ok in H as (distances & Hdistances & H).
    exists points, distances. split; [exact Hpoints|].
    split; [exact Hdistances|].
    destruct distances as [|v rest]; [discriminate|].
    injection H as <-. apply (max_loop rest v [v]).
    + constructor.
    + intros x ->%list_elem_of_singleton. apply fltb_irrefl.
Qed.

Lemma getRadius_maximum_witness :
  Cluster.getRadius Examples.line Examples.pair_cluster = Ok (round_int 1) /\
  exists points distances,
    Cluster.getContents Examples.line Examples.pair_cluster = Ok points /\
    forM (Cluster.distance Examples.line Examples.pair_cluster) points
      = Ok distances /\
    round_int 1 ∈ distances.
Proof.
  assert (H : Cluster.getRadius Examples.line Examples.pair_cluster
              = Ok (round_int 1)) by (vm_compute; reflexivity).
  split; [exact H|].
  destruct (proj2 (getRadius_maximum _ _) _ H)
    as (points & distances & Hp & Hd & Hin & _).
  exists points, distances. auto.
Defined.

(** ** Seeds and the construction of the engine *)

Lemma count_ints (seed : Z) (seeds : list Z) :
  Algorithm.count seed (map PyInt seeds)
    = Z.of_nat (count_occ Z.eq_dec seeds seed).
Proof.
  unfold Algorithm.count. f_equal.
  induction seeds as [|x seeds IH]; [reflexivity|].
  cbn [map count_occ]. rewrite filter_cons. cbn [Algorithm.eq_int PyInt].
  destruct (Z.eq_dec x seed) as [->|Hne].
  - rewrite decide_True by apply Z.eqb_refl. simpl. f_equal. exact IH.
  - rewrite decide_False; [exact IH|].
    intros Heq%Z.eqb_eq. contradiction.
Qed.

Lemma seeds_loop_true (value : list pyval) (size : Z) (rest : list pyval) :
  Algorithm.seeds_loop value size rest = true <->
  exists seeds,
    rest = map PyInt seeds /\
    Forall (fun z => 0 <= z < size /\ Algorithm.count z value <= 1) seeds.
Proof.
  induction rest as [|x rest IH].
  - split; [intros _; exists []; split; constructor|reflexivity].
  - destruct x as [|[seed|f]| | |];
      try (split; [discriminate | intros ([|z zs] & Heq & _); discriminate]).
    cbn [Algorithm.seeds_loop].
    destruct ((seed <? 0) || (seed >? size - 1)) eqn:Hrange.
    { split; [discriminate|]. intros ([|z zs] & Heq & Hall); [discriminate|].
      injection Heq as -> _. apply Forall_cons in Hall as ((Hz & _) & _).
      apply orb_true_iff in Hrange as [H%Z.ltb_lt|H%Z.gtb_lt]; lia. }
    apply orb_false_iff in Hrange as (H0%Z.ltb_ge & H1).
    assert (Hseed : 0 <= seed < size).
    { split; [exact H0|]. rewrite Z.gtb_ltb in H1. apply Z.ltb_ge in H1. lia. }
    destruct (Algorithm.count seed value >? 1) eqn:Hcount.
    { split; [discriminate|]. intros ([|z zs] & Heq & Hall); [discriminate|].
      injection Heq as -> _. apply Forall_cons in Hall as ((_ & Hc) & _).
      rewrite Z.gtb_ltb in Hcount. apply Z.ltb_lt in Hcount. lia. }
    rewrite Z.gtb_ltb in Hcount. apply Z.ltb_ge in Hcount.
    rewrite IH. split.
    + intros (zs & -> & Hall). exists (seed :: zs).
      split; [reflexivity|]. constructor; auto.
    + intros ([|z zs] & Heq & Hall); [discriminate|].
      injection Heq as -> ->. apply Forall_cons in Hall as (_ & Hall).
      eauto.
Qed.

Lemma valid_seeds_complete (size : Z) (seeds : list Z) :
  0 < size -> Forall (fun z => 0 <= z < size) seeds -> NoDup seeds ->
  Algorithm.valid_seeds (PyList (map PyInt seeds)) size = Ok true.
Proof.
  intros Hsize%Z.ltb_lt Hrange Hnd. unfold Algorithm.valid_seeds.
  rewrite Hsize. cbn [py_assert mbind result_bind]. f_equal.
  apply seeds_loop_true. exists seeds. split; [reflexivity|].
  apply Forall_forall. intros z Hz.
  split; [exact (proj1 (Forall_forall _ _) Hrange z Hz)|].
  rewrite count_ints.
  apply NoDup_ListNoDup in Hnd.
  pose proof (proj1 (List.NoDup_count_occ Z.eq_dec seeds) Hnd z). lia.
Qed.

Lemma valid_seeds_sound (value : pyval) (size : Z) :
  Algorithm.valid_seeds value size = Ok true ->
  0 < size /\
  exists seeds,
    value = PyList (map PyInt seeds) /\
    Forall (fun z => 0 <= z < size) seeds /\ NoDup seeds.
Proof.
  unfold Algorithm.valid_seeds. intros H.
  apply bind_Ok in H as ([] & Hsize%py_assert_Ok%Z.ltb_lt & H).
  split; [exact Hsize|].
  destruct value as [| | | |items]; try discriminate.
  injection H as H. apply seeds_loop_true in H as (seeds & -> & Hall).
  exists seeds. split; [reflexivity|]. split.
  - eapply Forall_impl; [exact Hall|]. intros z (Hz & _). exact Hz.
  - apply NoDup_ListNoDup, (List.NoDup_count_occ Z.eq_dec). intros z.
    destruct (List.in_dec Z.eq_dec z seeds) as [Hin|Hout].
    + apply list_elem_of_In in Hin.
      pose proof (proj1 (Forall_forall _ _) Hall z Hin) as (_ & Hc).
      rewrite count_ints in Hc. lia.
    + apply (List.count_occ_not_In Z.eq_dec) in Hout. lia.
Qed.

(** [valid_seeds(value, size)] is True exactly when [value] is a list
    of distinct ints between [0] and [size-1]. *)
Theorem valid_seeds_iff (value : pyval) (size : Z) :
  Algorithm.valid_seeds value size = Ok true <->
  0 < size /\
  exists seeds,
    value = PyList (map PyInt seeds) /\
    Forall (fun z => 0 <= z < size) seeds /\ NoDup seeds.
Proof.
  split; [apply valid_seeds_sound|].
  intros (Hsize & seeds & -> & Hrange & Hnd).
  apply valid_seeds_complete; assumption.
Qed.

Lemma valid_seeds_iff_witness :
  Algorithm.valid_seeds (PyList [PyInt 0; PyInt 4]) 5 = Ok true /\
  exists seeds, PyList [PyInt 0; PyInt 4] = PyList (map PyInt seeds).
Proof.
  assert (H : Algorithm.valid_seeds (PyList [PyInt 0; PyInt 4]) 5 = Ok true)
    by reflexivity.
  split; [exact H|].
  destruct (proj1 (valid_seeds_iff _ _) H) as (_ & seeds & Heq & _).
  exists seeds. exact Heq.
Defined.

Lemma seed_clusters (dset : Dataset.t) (seeds : list Z) :
  well_formed dset ->
  Forall (index_in_range dset) seeds ->
  exists clusters,
    forM (fun seed =>
            point ← Dataset.getPoint dset seed;
            Cluster.__init__ dset point)
         (map PyInt seeds) = Ok clusters /\
    length clusters = length seeds /\
    forall j z,
      seeds !! j = Some z ->
      exists point,
        Dataset.getContents dset !! Z.to_nat z = Some point /\
        clusters !! j = Some (seed_cluster point).
Proof.
  intros Hwf. induction 1 as [|z seeds Hz _ (clusters & Hcs & Hlen & Hall)].
  - exists []. repeat split. intros j z Hj. destruct j; discriminate.
  - destruct (proj1 (getPoint_cases dset z) Hz) as (p & Hp & Hget).
    assert (Hinit : Cluster.__init__ dset p = Ok (seed_cluster p)).
    { pose proof (proj1 (Forall_forall _ _) Hwf p) as (Hpoint & Hdim).
      { eapply list_elem_of_lookup_2. exact Hp. }
      unfold Cluster.__init__. rewrite Hdim.
      destruct p; try discriminate. cbn [is_tuple py_assert mbind result_bind].
      rewrite Z.eqb_refl. reflexivity. }
    exists (seed_cluster p :: clusters). cbn [map forM].
    rewrite Hget. cbn [mbind result_bind]. rewrite Hinit, Hcs.
    repeat split; [simpl; lia|].
    intros [|j] z' Hj; simpl in Hj.
    + injection Hj as <-. eauto.
    + apply Hall. exact Hj.
Qed.

(** With a well-formed dataset, [0 < k <= size] and a list of distinct
    valid seeds, the constructor succeeds and builds one cluster per
    seed, in the order of the seeds: its centroid is the point at the
    seed and it has no members. *)
Theorem init_with_seeds (dset : Dataset.t) (k : Z) (seeds sample : list Z) :
  well_formed dset ->
  0 < k <= Dataset.getSize dset ->
  Forall (index_in_range dset) seeds ->
  NoDup seeds ->
  exists self,
    Algorithm.__init__ dset (PyInt k) (PyList (map PyInt seeds)) sample
      = Ok self /\
    Algorithm._dataset self = dset /\
    length (Algorithm.getClusters self) = length seeds /\
    forall j z,
      seeds !! j = Some z ->
      exists point,
        Dataset.getContents dset !! Z.to_nat z = Some point /\
        Algorithm.getClusters self !! j = Some (seed_cluster point).
Proof.
  intros Hwf Hk Hrange Hnd.
  destruct (seed_clusters dset seeds Hwf Hrange) as (clusters & Hcs & Hlen & Hall).
  exists {| Algorithm._dataset := dset; Algorithm._cluster := clusters |}.
  split; [|auto]. unfold Algorithm.__init__, PyInt.
  replace ((0 <? k) && (k <=? Dataset.getSize dset)) with true
    by (symmetry; apply andb_true_iff; split;
        [apply Z.ltb_lt | apply Z.leb_le]; lia).
  cbn [py_assert mbind result_bind is_None negb py_items].
  rewrite valid_seeds_complete; [|lia|exact Hrange|exact Hnd].
  cbn [py_assert mbind result_bind]. fold PyInt.
  change (map (fun z => PyNum (NInt z)) seeds) with (map PyInt seeds).
  rewrite Hcs. reflexivity.
Qed.

Lemma init_with_seeds_witness :
  well_formed Examples.two /\
  exists self,
    Algorithm.__init__ Examples.two (PyInt 2)
      (PyList (map PyInt [1; 0])) [] = Ok self /\
    length (Algorithm.getClusters self) = 2%nat.
Proof.
  assert (Hwf : well_formed Examples.two) by repeat constructor.
  split; [exact Hwf|].
  destruct (init_with_seeds Examples.two 2 [1; 0] [] Hwf)
    as (self & Hself & _ & Hlen & _).
  - unfold Dataset.getSize. simpl. lia.
  - repeat constructor; unfold Dataset.getSize; simpl; lia.
  - repeat constructor; rewrite ?list_elem_of_In; simpl; intuition lia.
  - exists self. split; assumption.
Defined.

(** Without seeds, with a well-formed dataset and [0 < k <= size], the
    constructor succeeds on whatever [random.sample] draws and builds
    exactly [k] clusters, one per index drawn, in the order drawn. *)
Theorem init_with_sample (dset : Dataset.t) (k : Z) (sample : list Z) :
  well_formed dset ->
  0 < k <= Dataset.getSize dset ->
  Algorithm.is_sample (Dataset.getSize dset) k sample ->
  exists self,
    Algorithm.__init__ dset (PyInt k) PyNone sample = Ok self /\
    Algorithm._dataset self = dset /\
    Z.of_nat (length (Algorithm.getClusters self)) = k /\
    forall j z,
      sample !! j = Some z ->
      exists point,
        Dataset.getContents dset !! Z.to_nat z = Some point /\
        Algorithm.getClusters self !! j = Some (seed_cluster point).
Proof.
  intros Hwf Hk (Hlen & _ & Hrange).
  destruct (seed_clusters dset sample Hwf Hrange)
    as (clusters & Hcs & Hlen' & Hall).
  exists {| Algorithm._dataset := dset; Algorithm._cluster := clusters |}.
  split; [|simpl; repeat split; [lia | exact Hall]].
  unfold Algorithm.__init__, PyInt.
  replace ((0 <? k) && (k <=? Dataset.getSize dset)) with true
    by (symmetry; apply andb_true_iff; split;
        [apply Z.ltb_lt | apply Z.leb_le]; lia).
  cbn [py_assert mbind result_bind is_None negb].
  change (map (fun z => PyNum (NInt z)) sample) with (map PyInt sample).
  rewrite Hcs. reflexivity.
Qed.

Lemma init_with_sample_witness :
  Algorithm.is_sample (Dataset.getSize Examples.two) 2 [1; 0] /\
  exists self,
    Algorithm.__init__ Examples.two (PyInt 2) PyNone [1; 0] = Ok self /\
    Z.of_nat (length (Algorithm.getClusters self)) = 2.
Proof.
  assert (Hs : Algorithm.is_sample (Dataset.getSize Examples.two) 2 [1; 0]).
  { split; [reflexivity|]. split.
    - repeat constructor; rewrite ?list_elem_of_In; simpl; intuition lia.
    - repeat constructor; unfold Dataset.getSize; simpl; lia. }
  split; [exact Hs|].
  destruct (init_with_sample Examples.two 2 [1; 0]) as (self & H & _ & Hl & _).
  - repeat constructor.
  - unfold Dataset.getSize. simpl. lia.
  - exact Hs.
  - exists self. split; assumption.
Defined.

(** No engine can be constructed over an empty dataset: whatever [k],
    the seeds and the random draw, the constructor raises
    AssertionError. *)
Theorem init_empty_dataset (dset : Dataset.t) (k seeds : pyval)
    (sample : list Z) :
  Dataset.getSize dset = 0 ->
  Algorithm.__init__ dset k seeds sample = Raise AssertionError.
Proof.
  intros Hsize. unfold Algorithm.__init__.
  destruct k as [|[kz|]| | |]; try reflexivity.
  rewrite Hsize.
  replace ((0 <? kz) && (kz <=? 0)) with false; [reflexivity|].
  symmetry. apply andb_false_iff.
  destruct (Z.ltb_spec 0 kz); [right; apply Z.leb_gt; lia | left; reflexivity].
Qed.

Lemma init_empty_dataset_witness :
  Dataset.getSize {| Dataset._dimension := 1; Dataset._contents := [] |} = 0 /\
  Algorithm.__init__ {| Dataset._dimension := 1; Dataset._contents := [] |}
    (PyInt 1) PyNone [] = Raise AssertionError.
Proof.
  split; [reflexivity|]. apply init_empty_dataset. reflexivity.
Defined.

(** ** The phases of a step *)

Lemma update_loop_forM (dset : Dataset.t) (clusters : list Cluster.t) :
  forall (temp0 : bool) (updated0 : list Cluster.t),
    foldM (fun (acc : bool * list Cluster.t) cluster =>
             let '(temp, updated) := acc in
             '(update, cluster') ← Cluster.update dset cluster;
             Ok (if negb update then false else temp, updated ++ [cluster']))
          (temp0, updated0) clusters
    = (results ← forM (Cluster.update dset) clusters;
       Ok (temp0 && forallb fst results, updated0 ++ map snd results)).
Proof.
  induction clusters as [|c cs IH]; intros temp0 updated0.
  - cbn [foldM forM mbind result_bind forallb map].
    rewrite andb_true_r, app_nil_r. reflexivity.
  - cbn [foldM forM].
    destruct (Cluster.update dset c) as [[b c']|e]; [|reflexivity].
    cbn [mbind result_bind]. rewrite IH.
    destruct (forM (Cluster.update dset) cs) as [results|e]; [|reflexivity].
    cbn [mbind result_bind forallb map fst snd].
    rewrite <- app_assoc. destruct b, temp0; reflexivity.
Qed.

(** [_update] updates every cluster, in order, whatever the earlier
    ones returned, and returns True exactly when every [update] returned
    True: it is the conjunction of the flags over the list of updated
    clusters. *)
Theorem update_all_conjunction (self : Algorithm.t) :
  Algorithm._update self
  = (results ← forM (Cluster.update (Algorithm._dataset self))
                    (Algorithm.getClusters self);
     Ok (forallb fst results,
         {| Algorithm._dataset := Algorithm._dataset self;
            Algorithm._cluster := map snd results |})).
Proof.
  unfold Algorithm._update, Algorithm.getClusters.
  rewrite update_loop_forM.
  destruct (forM _ (Algorithm._cluster self)) as [results|e]; reflexivity.
Qed.

Lemma forM_update_indices (dset : Dataset.t) (clusters : list Cluster.t) :
  forall results,
    forM (Cluster.update dset) clusters = Ok results ->
    map Cluster._indices (map snd results) = map Cluster._indices clusters.
Proof.
  induction clusters as [|c cs IH]; intros results H; cbn [forM] in H.
  - injection H as <-. reflexivity.
  - apply bind_Ok in H as ([b c'] & Hc & H).
    apply bind_Ok in H as (rest & Hrest & H). injection H as <-.
    cbn [map snd]. rewrite (update_indices _ _ _ _ Hc), (IH _ Hrest).
    reflexivity.
Qed.

Lemma update_all_members (self self' : Algorithm.t) (b : bool) :
  Algorithm._update self = Ok (b, self') ->
  members (Algorithm._cluster self') = members (Algorithm._cluster self).
Proof.
  unfold Algorithm._update. rewrite update_loop_forM. intros H.
  apply bind_Ok in H as ([temp cs] & Hloop & H).
  apply bind_Ok in Hloop as (results & Hresults & Hloop).
  injection Hloop as _ <-. injection H as _ <-.
  unfold members. simpl. f_equal. eapply forM_update_indices. exact Hresults.
Qed.

Lemma step_members (self self' : Algorithm.t) (b : bool) :
  Algorithm.step self = Ok (b, self') ->
  Permutation
    (members (Algorithm._cluster self'))
    (Algorithm.range (length (Dataset.getContents (Algorithm._dataset self)))).
Proof.
  unfold Algorithm.step. intros H.
  apply bind_Ok in H as (partitioned & Hp & H).
  apply update_all_members in H. rewrite H.
  apply partition_permutation in Hp as (_ & _ & Hp). exact Hp.
Qed.

(** After a whole step, as after [_partition], the indices held by the
    clusters are the indices [0 .. size-1] of the dataset, each once:
    recomputing the centroids does not touch the memberships.  The
    dataset and the number of clusters are as before the step. *)
Theorem step_keeps_partition (self self' : Algorithm.t) (b : bool) :
  Algorithm.step self = Ok (b, self') ->
  Algorithm._dataset self' = Algorithm._dataset self /\
  length (Algorithm.getClusters self') = length (Algorithm.getClusters self) /\
  Permutation
    (members (Algorithm.getClusters self'))
    (Algorithm.range (Z.to_nat (Dataset.getSize (Algorithm._dataset self)))).
Proof.
  intros H. pose proof (step_frame _ _ _ H) as (Hd & Hl).
  unfold Algorithm.getClusters, Dataset.getSize. rewrite Nat2Z.id.
  repeat split; [exact Hd | exact Hl | exact (step_members _ _ _ H)].
Qed.

Lemma step_keeps_partition_witness :
  Algorithm.step Examples.line_engine = Ok (false, Examples.line_engine1) /\
  Permutation (members (Algorithm.getClusters Examples.line_engine1))
              [0; 1; 2; 3].
Proof.
  assert (H : Algorithm.step Examples.line_engine
              = Ok (false, Examples.line_engine1))
    by (vm_compute; reflexivity).
  split; [exact H|].
  exact (proj2 (proj2 (step_keeps_partition _ _ _ H))).
Defined.

(** A step does not depend on the memberships it starts from: two
    engines over the same dataset whose clusters have the same
    centroids make the same step, whatever indices their clusters
    hold. *)
Theorem step_ignores_membership (self1 self2 : Algorithm.t) :
  Algorithm._dataset self1 = Algorithm._dataset self2 ->
  map Cluster.getCentroid (Algorithm.getClusters self1) =
    map Cluster.getCentroid (Algorithm.getClusters self2) ->
  Algorithm.step self1 = Algorithm.step self2.
Proof. apply step_reads_centroids. Qed.

Lemma step_ignores_membership_witness :
  Algorithm.step Examples.line_engine
  = Algorithm.step Examples.line_partitioned.
Proof.
  apply step_ignores_membership; reflexivity.
Defined.

Lemma run_loop_members (n : nat) :
  forall self trace0 self' trace,
    Algorithm.run_loop n self trace0 = Ok (self', trace) ->
    (self' = self /\ trace = trace0) \/
    Permutation
      (members (Algorithm._cluster self'))
      (Algorithm.range
         (length (Dataset.getContents (Algorithm._dataset self)))).
Proof.
  induction n as [|n IH]; simpl; intros self trace0 self' trace H.
  - injection H as <- <-. auto.
  - right. apply bind_Ok in H as ([converge self1] & Hstep & H).
    pose proof (step_members _ _ _ Hstep) as Hm.
    pose proof (step_frame _ _ _ Hstep) as (Hd & _).
    destruct converge.
    + injection H as <- _. exact Hm.
    + apply IH in H as [(-> & _)|H]; [exact Hm|].
      rewrite Hd in H. exact H.
Qed.

(** [run] keeps the dataset and the number of clusters, and once it has
    made a step the clusters partition the indices of the dataset. *)
Theorem run_keeps_partition (self self' : Algorithm.t) (maxstep : pyval)
    (trace : list bool) :
  Algorithm.run self maxstep = Ok (self', trace) ->
  Algorithm._dataset self' = Algorithm._dataset self /\
  length (Algorithm.getClusters self') = length (Algorithm.getClusters self) /\
  (trace <> [] ->
   Permutation
     (members (Algorithm.getClusters self'))
     (Algorithm.range
        (Z.to_nat (Dataset.getSize (Algorithm._dataset self))))).
Proof.
  unfold Algorithm.run. destruct maxstep as [|[m|]| | |]; try discriminate.
  intros H. apply bind_Ok in H as ([] & _ & H).
  pose proof (run_loop_frame _ _ _ _ _ H) as (Hd & Hl).
  unfold Algorithm.getClusters, Dataset.getSize. rewrite Nat2Z.id.
  repeat split; [exact Hd | exact Hl |].
  intros Htrace. apply run_loop_members in H as [(_ & ->)|H];
    [congruence | exact H].
Qed.

Lemma run_keeps_partition_witness :
  Algorithm.run Examples.line_engine (PyInt 5)
    = Ok (Examples.line_engine1, [false; true]) /\
  length (Algorithm.getClusters Examples.line_engine1) = 2%nat.
Proof.
  assert (H : Algorithm.run Examples.line_engine (PyInt 5)
              = Ok (Examples.line_engine1, [false; true]))
    by (vm_compute; reflexivity).
  split; [exact H|].
  exact (proj1 (proj2 (run_keeps_partition _ _ _ _ H))).
Defined.

(** An engine constructed from an empty list of seeds has no cluster,
    and on a well-formed dataset its first step raises ValueError: the
    minimum of no distance. *)
Theorem empty_seeds_cannot_step (dset : Dataset.t) (k : pyval)
    (sample : list Z) (self : Algorithm.t) :
  well_formed dset ->
  Algorithm.__init__ dset k (PyList []) sample = Ok self ->
  Algorithm.getClusters self = [] /\
  Algorithm.step self = Raise ValueError.
Proof.
  intros Hwf H. unfold Algorithm.__init__ in H.
  destruct k as [|[kz|]| | |]; try discriminate.
  apply bind_Ok in H as ([] & Hk%py_assert_Ok & H).
  apply andb_true_iff in Hk as (Hk0%Z.ltb_lt & Hk1%Z.leb_le).
  apply bind_Ok in H as (valid & _ & H).
  apply bind_Ok in H as ([] & _ & H).
  cbn [is_None negb py_items mbind result_bind forM] in H.
  injection H as <-. split; [reflexivity|].
  unfold Algorithm.step, Algorithm._partition. cbn [Algorithm._dataset
    Algorithm._cluster map].
  destruct (Dataset.getContents dset) as [|p points] eqn:Hcontents.
  { unfold Dataset.getSize in Hk1. rewrite Hcontents in Hk1. simpl in Hk1. lia. }
  pose proof Hwf as Hp. unfold well_formed in Hp. rewrite Hcontents in Hp.
  apply Forall_inv in Hp as (Hpoint & Hdim).
  assert (Hassign :
    Algorithm.assign
      {| Algorithm._dataset := dset; Algorithm._cluster := [] |} 0
    = Raise ValueError).
  { unfold Algorithm.assign. cbn [Algorithm._dataset Algorithm._cluster].
    destruct (proj1 (getPoint_cases dset 0)) as (p0 & Hp0 & ->).
    { unfold Dataset.getSize. rewrite Hcontents. simpl. lia. }
    rewrite Hcontents in Hp0. injection Hp0 as <-.
    cbn [mbind result_bind]. unfold Algorithm._nearest.
    cbn [Algorithm._dataset Algorithm._cluster].
    rewrite Hpoint, Hdim. cbn [py_assert mbind result_bind].
    rewrite Z.eqb_refl. reflexivity. }
  cbn [length Algorithm.range seq map foldM]. change (Z.of_nat 0) with 0.
  rewrite Hassign. reflexivity.
Qed.

Lemma empty_seeds_cannot_step_witness :
  well_formed Examples.two /\
  Algorithm.__init__ Examples.two (PyInt 1) (PyList []) []
    = Ok {| Algorithm._dataset := Examples.two; Algorithm._cluster := [] |} /\
  Algorithm.step
    {| Algorithm._dataset := Examples.two; Algorithm._cluster := [] |}
    = Raise ValueError.
Proof.
  assert (Hwf : well_formed Examples.two) by repeat constructor.
  assert (H : Algorithm.__init__ Examples.two (PyInt 1) (PyList []) []
              = Ok {| Algorithm._dataset := Examples.two;
                      Algorithm._cluster := [] |}) by reflexivity.
  split; [exact Hwf|]. split; [exact H|].
  exact (proj2 (empty_seeds_cannot_step _ _ _ _ Hwf H)).
Defined.
